(** * The address extractor and the document constructor of the
      OpenStreetMap importer, as a shallow embedding.

    [stream/address_extractor.js] is embedded function by function: the
    predicate [hasValidAddress], the transform function of the stream with
    its loop over the house numbers, and [setProperties].  The module-level
    counter [idOrdinal], the documents pushed downstream and the logger's
    output are threaded through as a state; a call that throws returns
    [Throw].  The document type the stream builds ([Document] of
    pelias-model) is an external package: its fields follow what the
    source reads and writes, and its validation rules are a parameter
    ([Validators]).  [stream/document_constructor.js] is known by its
    tests only and is modelled from the specification. *)

From Stdlib Require Import String Ascii List ZArith Bool Lia DecimalString.
From Stdlib Require DecimalPos DecimalZ.
Import ListNotations.
Local Open Scope string_scope.
Local Open Scope Z_scope.
Set Warnings "-register-all".

(** ** JavaScript data values *)

(** The values that flow through the pipeline: primitives, plain objects
    (own properties in insertion order) and arrays.  Numbers are the
    integer-valued ones, strings are sequences of code units below 256;
    callable values do not occur in the data. *)
Inductive value : Type :=
| VUndefined
| VNull
| VBool (b : bool)
| VNumber (n : Z)
| VString (s : string)
| VObject (props : list (string * value))
| VArray (elems : list value).

Definition props : Type := list (string * value).

(** What a throwing operation raises. *)
Inductive error : Type :=
| TypeError
| PeliasModelError (what : string).

Inductive result (A : Type) : Type :=
| Ok (a : A)
| Throw (e : error).
Arguments Ok {A} a.
Arguments Throw {A} e.

Definition bind {A B : Type} (m : result A) (k : A -> result B) : result B :=
  match m with
  | Ok a => k a
  | Throw e => Throw e
  end.

Notation "x <- m ;; k" := (bind m (fun x => k))
  (at level 61, m at next level, right associativity).

(** [typeof v]. *)
Definition typeof (v : value) : string :=
  match v with
  | VUndefined => "undefined"
  | VNull => "object"
  | VBool _ => "boolean"
  | VNumber _ => "number"
  | VString _ => "string"
  | VObject _ => "object"
  | VArray _ => "object"
  end.

(** The is-object package: [typeof x === 'object' && x !== null]. *)
Definition isObject (v : value) : bool :=
  String.eqb (typeof v) "object" &&
  match v with VNull => false | _ => true end.

(** [!!v] *)
Definition truthy (v : value) : bool :=
  match v with
  | VUndefined | VNull => false
  | VBool b => b
  | VNumber n => negb (n =? 0)
  | VString s => negb (String.eqb s "")
  | VObject _ | VArray _ => true
  end.

Definition is_undefined (v : value) : bool :=
  match v with VUndefined => true | _ => false end.

Fixpoint lookup (k : string) (ps : props) : option value :=
  match ps with
  | [] => None
  | (k', v) :: r => if String.eqb k k' then Some v else lookup k r
  end.

(** [o[k] = v] on the property list of an object. *)
Fixpoint assign (k : string) (v : value) (ps : props) : props :=
  match ps with
  | [] => [(k, v)]
  | (k', v') :: r =>
      if String.eqb k k' then (k, v) :: r else (k', v') :: assign k v r
  end.

Definition has_key (k : string) (ps : props) : bool :=
  match lookup k ps with Some _ => true | None => false end.

(** Decimal form of an integer-valued number (the form [ToString] gives
    below 10^21). *)
Definition decimal (n : Z) : string := NilZero.string_of_int (Z.to_int n).

(** The index a property name denotes among the first [n] ones. *)
Definition index_of (k : string) (n : nat) : option nat :=
  find (fun i => String.eqb (decimal (Z.of_nat i)) k) (seq 0 n).

Definition char_at (s : string) (i : nat) : value :=
  match String.get i s with
  | Some c => VString (String c EmptyString)
  | None => VUndefined
  end.

(** [v[k]]: a property read.  Reading a property of [undefined] or [null]
    throws; a missing property reads as [undefined]. *)
Definition get (v : value) (k : string) : result value :=
  match v with
  | VUndefined | VNull => Throw TypeError
  | VBool _ | VNumber _ => Ok VUndefined
  | VString s =>
      if String.eqb k "length" then Ok (VNumber (Z.of_nat (String.length s)))
      else match index_of k (String.length s) with
           | Some i => Ok (char_at s i)
           | None => Ok VUndefined
           end
  | VObject ps =>
      match lookup k ps with Some x => Ok x | None => Ok VUndefined end
  | VArray l =>
      if String.eqb k "length" then Ok (VNumber (Z.of_nat (List.length l)))
      else match index_of k (List.length l) with
           | Some i => Ok (nth i l VUndefined)
           | None => Ok VUndefined
           end
  end.

(** ** hasValidAddress *)

Definition hasValidAddress (doc : value) : result bool :=
  if negb (isObject doc) then Ok false else
  address <- get doc "address" ;;
  if negb (isObject address) then Ok false else
  number <- get address "number" ;;
  if negb (String.eqb "string" (typeof number)) then Ok false else
  street <- get address "street" ;;
  if negb (String.eqb "string" (typeof street)) then Ok false else
  number_length <- get number "length" ;;
  if negb (truthy number_length) then Ok false else
  street_length <- get street "length" ;;
  if negb (truthy street_length) then Ok false else
  Ok true.

(** ** Strings: [split], [trim], [join] *)

(** [s.split(sep)] for a one-character separator. *)
Fixpoint split (sep : ascii) (s : string) : list string :=
  match s with
  | EmptyString => [EmptyString]
  | String c r =>
      if Ascii.eqb c sep then EmptyString :: split sep r
      else match split sep r with
           | h :: t => String c h :: t
           | [] => [String c EmptyString]
           end
  end.

(** White space of [String.prototype.trim] among the code units below 256:
    tab, line feed, vertical tab, form feed, carriage return, space and
    no-break space. *)
Definition is_space (c : ascii) : bool :=
  let n := nat_of_ascii c in
  ((9 <=? n) && (n <=? 13) || (n =? 32) || (n =? 160))%nat.

Fixpoint trim_start (s : string) : string :=
  match s with
  | EmptyString => EmptyString
  | String c r => if is_space c then trim_start r else s
  end.

Fixpoint trim_end (s : string) : string :=
  match s with
  | EmptyString => EmptyString
  | String c r =>
      let r' := trim_end r in
      if is_space c && String.eqb r' "" then EmptyString else String c r'
  end.

Definition trim (s : string) : string := trim_end (trim_start s).

(** [ToString] on data values; a plain object prints as
    [[object Object]], an array as its elements joined by commas. *)
Fixpoint to_string (v : value) : string :=
  match v with
  | VUndefined => "undefined"
  | VNull => "null"
  | VBool true => "true"
  | VBool false => "false"
  | VNumber n => decimal n
  | VString s => s
  | VObject _ => "[object Object]"
  | VArray l =>
      String.concat ","
        (map (fun x => match x with
                       | VUndefined | VNull => ""
                       | _ => to_string x
                       end) l)
  end.

(** [l.join(sep)]: [undefined] and [null] elements print as nothing. *)
Definition join (sep : string) (l : list value) : string :=
  String.concat sep
    (map (fun x => match x with
                   | VUndefined | VNull => ""
                   | _ => to_string x
                   end) l).

(** [extend(true, target, copy)] of the extend package, on one property:
    objects and arrays are merged recursively into a fresh copy, an
    [undefined] source leaves the target as it is, anything else replaces
    it. *)
Fixpoint extend_value (copy : value) (src : value) {struct copy} : value :=
  match copy with
  | VUndefined => src
  | VObject cps =>
      VObject
        ((fix go (cps : props) (tgt : props) {struct cps} : props :=
            match cps with
            | [] => tgt
            | (k, c) :: r =>
                let old := match lookup k tgt with
                           | Some t => t
                           | None => VUndefined
                           end in
                let x := extend_value c old in
                if is_undefined c then go r tgt else go r (assign k x tgt)
            end) cps (match src with VObject tps => tps | _ => [] end))
  | VArray ccs =>
      VArray
        ((fix go (ccs : list value) (tgt : list value) {struct ccs}
            : list value :=
            match ccs, tgt with
            | [], _ => tgt
            | c :: r, [] => extend_value c VUndefined :: go r []
            | c :: r, t :: tr => extend_value c t :: go r tr
            end) ccs (match src with VArray tl => tl | _ => [] end))
  | _ => copy
  end.

(** [extend(true, {}, a, b)]. *)
Definition extend (a b : props) : props :=
  match extend_value (VObject b) (extend_value (VObject a) (VObject [])) with
  | VObject ps => ps
  | _ => []
  end.

(** ** The document type *)

(** Modelled from the spec: the canonical document type ([Document] of the
    pelias-model package, which the source only calls), by what its
    getters return: the identity (source, type, id, sourceId), the names,
    the centroid, the address fields, the country code, the administrative
    fields and the metadata.  The fields [address] and [_meta] are the ones
    the source also reads directly. *)
Record Document : Type := mkDocument {
  getSource : value;
  getType : value;
  getId : value;
  getSourceId : value;
  name : props;
  getCentroid : value;
  address : value;
  getAlpha3 : value;
  admin : props;
  _meta : props
}.

(** The validation rules of the document type, which the stream treats
    as a capability that may fail: which arguments the constructor and each
    of the setters accept.  A rejected argument makes the call throw. *)
Record Validators : Type := mkValidators {
  valid_document : value -> value -> value -> bool;
  valid_name : string -> value -> bool;
  valid_centroid : value -> bool;
  valid_sourceId : value -> bool;
  valid_address : string -> value -> bool;
  valid_alpha3 : value -> bool;
  valid_admin : string -> value -> bool;
  valid_meta : string -> value -> bool
}.

(** The document as the object that [hasValidAddress] inspects. *)
Definition as_object (doc : Document) : value :=
  VObject [("name", VObject (name doc));
           ("address", address doc);
           ("_meta", VObject (_meta doc))].

Definition getName (doc : Document) (prop : string) : value :=
  match lookup prop (name doc) with Some v => v | None => VUndefined end.

Definition getAddress (doc : Document) (prop : string) : result value :=
  get (address doc) prop.

Definition getAdmin (doc : Document) (prop : string) : value :=
  match lookup prop (admin doc) with Some v => v | None => VUndefined end.

Definition getMeta (doc : Document) (prop : string) : value :=
  match lookup prop (_meta doc) with Some v => v | None => VUndefined end.

Definition set_meta (doc : Document) (m : props) : Document :=
  mkDocument (getSource doc) (getType doc) (getId doc) (getSourceId doc)
    (name doc) (getCentroid doc) (address doc) (getAlpha3 doc) (admin doc) m.

Section Model.

Variable V : Validators.

(** Modelled from the spec: [new Document(source, type, id)] and the
    setters.  Each one checks its arguments and, when they are accepted,
    stores them as they are; the setters return the document, for
    chaining. *)
Definition Document_new (source type id : value) : result Document :=
  if valid_document V source type id
  then Ok (mkDocument source type id VUndefined [] (VObject [])
             (VObject []) VUndefined [] [])
  else Throw (PeliasModelError "document").

Definition setName (doc : Document) (prop : string) (v : value)
  : result Document :=
  if valid_name V prop v
  then Ok (mkDocument (getSource doc) (getType doc) (getId doc)
             (getSourceId doc) (assign prop v (name doc)) (getCentroid doc)
             (address doc) (getAlpha3 doc) (admin doc) (_meta doc))
  else Throw (PeliasModelError "name").

Definition setCentroid (doc : Document) (v : value) : result Document :=
  if valid_centroid V v
  then Ok (mkDocument (getSource doc) (getType doc) (getId doc)
             (getSourceId doc) (name doc) v
             (address doc) (getAlpha3 doc) (admin doc) (_meta doc))
  else Throw (PeliasModelError "centroid").

Definition setSourceId (doc : Document) (v : value) : result Document :=
  if valid_sourceId V v
  then Ok (mkDocument (getSource doc) (getType doc) (getId doc)
             v (name doc) (getCentroid doc)
             (address doc) (getAlpha3 doc) (admin doc) (_meta doc))
  else Throw (PeliasModelError "sourceId").

(** [this.address[prop] = v]; the address of a constructed document is
    an object. *)
Definition setAddress (doc : Document) (prop : string) (v : value)
  : result Document :=
  if valid_address V prop v
  then match address doc with
       | VObject ps =>
           Ok (mkDocument (getSource doc) (getType doc) (getId doc)
                 (getSourceId doc) (name doc) (getCentroid doc)
                 (VObject (assign prop v ps)) (getAlpha3 doc) (admin doc)
                 (_meta doc))
       | _ => Throw TypeError
       end
  else Throw (PeliasModelError "address").

Definition setAlpha3 (doc : Document) (v : value) : result Document :=
  if valid_alpha3 V v
  then Ok (mkDocument (getSource doc) (getType doc) (getId doc)
             (getSourceId doc) (name doc) (getCentroid doc)
             (address doc) v (admin doc) (_meta doc))
  else Throw (PeliasModelError "alpha3").

Definition setAdmin (doc : Document) (prop : string) (v : value)
  : result Document :=
  if valid_admin V prop v
  then Ok (mkDocument (getSource doc) (getType doc) (getId doc)
             (getSourceId doc) (name doc) (getCentroid doc)
             (address doc) (getAlpha3 doc) (assign prop v (admin doc))
             (_meta doc))
  else Throw (PeliasModelError "admin").

Definition setMeta (doc : Document) (prop : string) (v : value)
  : result Document :=
  if valid_meta V prop v
  then Ok (set_meta doc (assign prop v (_meta doc)))
  else Throw (PeliasModelError "meta").

(** ** setProperties *)

Definition addrProps : list string := ["name"; "number"; "street"; "zip"].
Definition adminProps : list string :=
  ["admin0"; "admin1"; "admin1_abbr"; "admin2"; "local_admin"; "locality";
   "neighborhood"].

(** [try { ... } catch ( ex ) {}] around a setter call on [record]: a
    throw leaves the record as it was. *)
Definition ignoring (record : Document) (m : result Document) : Document :=
  match m with
  | Ok record' => record'
  | Throw _ => record
  end.

Definition setProperties (record doc : Document) : Document :=
  let record :=
    fold_left (fun record prop =>
                 ignoring record
                   (v <- getAddress doc prop ;; setAddress record prop v))
              addrProps record in
  let record := ignoring record (setAlpha3 record (getAlpha3 doc)) in
  fold_left (fun record level =>
               ignoring record (setAdmin record level (getAdmin doc level)))
            adminProps record.

End Model.

(** ** The address extractor stream *)

(** What [peliasLogger.error] receives.  [LogJSON doc] stands for
    [JSON.stringify( doc, null, 2 )]. *)
Inductive log_entry : Type :=
| LogMessage (msg : string)
| LogStack (e : error)
| LogJSON (doc : Document).

(** The state a call of the transform function works on: the module-level
    counter [idOrdinal], the documents pushed downstream so far and the
    logger's output. *)
Record Stream : Type := mkStream {
  idOrdinal : Z;
  pushed : list Document;
  logged : list log_entry
}.

Definition push (doc : Document) (st : Stream) : Stream :=
  mkStream (idOrdinal st) (pushed st ++ [doc]) (logged st).

Definition split_method (v : value) (sep : ascii) : result (list string) :=
  match v with
  | VString s => Ok (split sep s)
  | _ => Throw TypeError
  end.

Section Extractor.

Variable V : Validators.

(** The [newid] array of the component with index [i]; [base] is the
    value of [doc.getSourceId() || ++idOrdinal]. *)
Definition newid (doc : Document) (type : string) (base : value)
           (i : nat) (streetno : string) : list value :=
  [VString "osm"; getType doc; VString type; base]
    ++ (if (0 <? i)%nat then [VString streetno] else []).

(** The statements of the [try] block after [newid] is built. *)
Definition construct (doc : Document) (type : string) (base : value)
           (i : nat) (streetno : string) : result Document :=
  record <- Document_new V (VString "osm") (VString "address")
              (VString (join "-" (newid doc type base i streetno))) ;;
  addr <- get (as_object doc) "address" ;;
  street <- get addr "street" ;;
  record <- setName V record "default"
              (VString (streetno ++ " " ++ to_string street)) ;;
  record <- setCentroid V record (getCentroid doc) ;;
  record <- setSourceId V record (getSourceId doc) ;;
  Ok (setProperties V record doc).

(** The body of the [forEach] callback.  [record] is the variable
    declared once per call of the transform function, outside the
    callback. *)
Definition streetnumber (doc : Document) (type : string)
           (i : nat) (streetno : string)
           (env : Stream * option Document) : Stream * option Document :=
  let (st, record) := env in
  let ordinal :=
    if truthy (getSourceId doc) then idOrdinal st else idOrdinal st + 1 in
  let base :=
    if truthy (getSourceId doc) then getSourceId doc
    else VNumber ordinal in
  let attempt := construct doc type base i streetno in
  let record :=
    match attempt with
    | Ok r => Some r
    | Throw _ => record
    end in
  let st :=
    match attempt with
    | Ok _ => mkStream ordinal (pushed st) (logged st)
    | Throw e =>
        mkStream ordinal (pushed st)
          (logged st ++ [LogMessage "address_extractor error";
                         LogStack e; LogJSON doc])
    end in
  match record with
  | Some r =>
      let r := set_meta r (extend (_meta doc)
                             [("id", getId r); ("type", getType r)]) in
      (push r st, Some r)
  | None => (st, None)
  end.

Fixpoint forEach (doc : Document) (type : string) (i : nat)
         (streetnumbers : list string)
         (env : Stream * option Document) : Stream * option Document :=
  match streetnumbers with
  | [] => env
  | streetno :: rest =>
      forEach doc type (S i) rest (streetnumber doc type i streetno env)
  end.

Definition isNamedPoi (doc : Document) : bool :=
  truthy (getName doc "default").

(** [doc.address.number.split(';').map(Function.prototype.call,
    String.prototype.trim)] *)
Definition streetnumbers (doc : Document) : result (list string) :=
  addr <- get (as_object doc) "address" ;;
  number <- get addr "number" ;;
  parts <- split_method number ";" ;;
  Ok (map trim parts).

(** The transform function of the stream, for one document. *)
Definition transform (doc : Document) (st : Stream) : result Stream :=
  let isNamedPoi := isNamedPoi doc in
  valid <- hasValidAddress (as_object doc) ;;
  st <- (if valid then
           let type := if isNamedPoi then "poi-address" else "address" in
           streetnumbers <- streetnumbers doc ;;
           Ok (fst (forEach doc type 0 streetnumbers (st, None)))
         else Ok st) ;;
  Ok (if isNamedPoi then push doc st else st).

(** The stream on a sequence of documents. *)
Fixpoint run (docs : list Document) (st : Stream) : result Stream :=
  match docs with
  | [] => Ok st
  | doc :: rest => st <- transform doc st ;; run rest st
  end.

End Extractor.

(** ** Two document types to run the stream with *)

(** A document type that accepts every argument. *)
Definition permissive : Validators :=
  mkValidators (fun _ _ _ => true) (fun _ _ => true) (fun _ => true)
    (fun _ => true) (fun _ _ => true) (fun _ => true) (fun _ _ => true)
    (fun _ _ => true).

Definition is_number (v : value) : bool :=
  match v with VNumber _ => true | _ => false end.

Definition nonblank (v : value) : bool :=
  match v with
  | VString s => negb (String.eqb (trim s) "")
  | _ => false
  end.

Definition coordinate (v : value) (k : string) : bool :=
  match get v k with
  | Ok x => is_number x
  | Throw _ => false
  end.

(** A document type that enforces a valid identity, name and centroid:
    source, type and id are non-blank strings or numbers, a name or an
    address field is a non-blank string, and a centroid has a numeric
    [lat] and [lon]. *)
Definition strict : Validators :=
  mkValidators
    (fun source type id =>
       nonblank source && nonblank type && (nonblank id || is_number id))
    (fun _ v => nonblank v)
    (fun c => coordinate c "lat" && coordinate c "lon")
    (fun _ => true)
    (fun _ v => nonblank v)
    (fun v => nonblank v)
    (fun _ v => nonblank v)
    (fun _ _ => true).

(** ** The address shape the specification asks for *)

Definition nonempty_string_field (o : value) (k : string) : bool :=
  match get o k with
  | Ok (VString s) => negb (String.eqb s "")
  | _ => false
  end.

(** [doc.address] exists, [doc.address.number] is a non-empty string and
    [doc.address.street] is a non-empty string. *)
Definition valid_address_shape (doc : value) : bool :=
  match get doc "address" with
  | Ok addr =>
      negb (is_undefined addr)
      && nonempty_string_field addr "number"
      && nonempty_string_field addr "street"
  | Throw _ => false
  end.

(** A decimal digit. *)
Definition is_digit (c : ascii) : bool :=
  ((48 <=? nat_of_ascii c) && (nat_of_ascii c <=? 57))%nat.

(** What [hasValidAddress] answers once [doc.address] has been read. *)
Definition address_check (addr : value) : bool :=
  match addr with
  | VObject aps =>
      match lookup "number" aps, lookup "street" aps with
      | Some (VString number), Some (VString street) =>
          negb (String.eqb number "") && negb (String.eqb street "")
      | _, _ => false
      end
  | _ => false
  end.

(** ** The address loop, component by component *)

Definition succeeded {A : Type} (m : result A) : bool :=
  match m with Ok _ => true | Throw _ => false end.

(** The value of [type] in the transform function. *)
Definition component_type (doc : Document) : string :=
  if truthy (getName doc "default") then "poi-address" else "address".

(** [record._meta = extend( true, {}, doc._meta, { id: ..., type: ... } )] *)
Definition with_meta (doc record : Document) : Document :=
  set_meta record
    (extend (_meta doc) [("id", getId record); ("type", getType record)]).

(** The outcome of the [try] block for each component in turn, the counter
    standing at [ordinal] before the component with index [i]. *)
Fixpoint attempts (V : Validators) (doc : Document) (type : string)
         (ordinal : Z) (i : nat) (streetnumbers : list string)
  : list (result Document) :=
  match streetnumbers with
  | [] => []
  | streetno :: rest =>
      let ordinal :=
        if truthy (getSourceId doc) then ordinal else ordinal + 1 in
      let base :=
        if truthy (getSourceId doc) then getSourceId doc
        else VNumber ordinal in
      construct V doc type base i streetno
        :: attempts V doc type ordinal (S i) rest
  end.

(** A document built by the [try] block from [doc] for one of the
    components [streetnumbers], with its metadata attached. *)
Definition derived_from (V : Validators) (doc : Document)
           (streetnumbers : list string) (record : Document) : Prop :=
  exists base i streetno r,
    nth_error streetnumbers i = Some streetno /\
    construct V doc (component_type doc) base i streetno = Ok r /\
    record = with_meta doc r.

(** ** The document constructor stream *)

(** What the document constructor stream has pushed downstream and
    logged. *)
Record Constructed : Type := mkConstructed {
  documents : list Document;
  errors : list log_entry
}.

Section Constructor.

Variable V : Validators.

Definition field (item : props) (k : string) : value :=
  match lookup k item with Some v => v | None => VUndefined end.

(** Modelled from the spec: the body of the document constructor stream
    ([stream/document_constructor.js], of which only the tests are at
    hand).  A document is built from the fixed provenance tag, the
    record's type (the default category when absent) and the record's
    id; the centroid comes from [lat] and [lon] when both are present,
    else from [centroid] when present; [nodes] and [tags] are attached as
    metadata when present. *)
Definition build_document (item : props) : result Document :=
  doc <- Document_new V (VString "osm")
           (if has_key "type" item then field item "type"
            else VString "venue")
           (field item "id") ;;
  doc <- (if has_key "lat" item && has_key "lon" item then
            setCentroid V doc (VObject [("lat", field item "lat");
                                        ("lon", field item "lon")])
          else if has_key "centroid" item then
            setCentroid V doc (field item "centroid")
          else Ok doc) ;;
  doc <- (if has_key "nodes" item
          then setMeta V doc "nodes" (field item "nodes") else Ok doc) ;;
  doc <- (if has_key "tags" item
          then setMeta V doc "tags" (field item "tags") else Ok doc) ;;
  Ok doc.

(** Modelled from the spec: the error policy of the document constructor
    stream.  A failure of the construction is suppressed and logged, no
    document is pushed, and the stream goes on. *)
Definition document_constructor (item : props) (st : Constructed)
  : result Constructed :=
  match build_document item with
  | Ok doc => Ok (mkConstructed (documents st ++ [doc]) (errors st))
  | Throw e =>
      Ok (mkConstructed (documents st)
            (errors st ++ [LogMessage "error constructing document model";
                           LogStack e]))
  end.

Fixpoint construct_all (items : list props) (st : Constructed)
  : result Constructed :=
  match items with
  | [] => Ok st
  | item :: rest =>
      st <- document_constructor item st ;; construct_all rest st
  end.

End Constructor.

(** What the loop pushes, from the outcomes of the [try] blocks: [record]
    holds the last document built, and is pushed after every component
    once it is set. *)
Fixpoint carried (doc : Document) (record : option Document)
         (outcomes : list (result Document)) : list Document :=
  match outcomes with
  | [] => []
  | a :: rest =>
      match (match a with Ok r => Some r | Throw _ => record end) with
      | Some r =>
          with_meta doc r :: carried doc (Some (with_meta doc r)) rest
      | None => carried doc None rest
      end
  end.

(** The documents built, in order. *)
Fixpoint built (outcomes : list (result Document)) : list Document :=
  match outcomes with
  | [] => []
  | Ok r :: rest => r :: built rest
  | Throw _ :: rest => built rest
  end.

(** [doc.address.number] and [doc.address.street] when they are strings. *)
Definition house_number (doc : Document) : string :=
  match get (address doc) "number" with
  | Ok (VString s) => s
  | _ => ""
  end.

Definition street_name (doc : Document) : string :=
  match get (address doc) "street" with
  | Ok (VString s) => s
  | _ => ""
  end.

(** The house-number components: split on [;], each one trimmed. *)
Definition components (doc : Document) : list string :=
  map trim (split ";" (house_number doc)).

(** The fields of a document that [setProperties] leaves alone. *)
Definition same_identity (r r' : Document) : Prop :=
  getSource r' = getSource r /\ getType r' = getType r /\
  getId r' = getId r /\ getSourceId r' = getSourceId r /\
  name r' = name r /\ getCentroid r' = getCentroid r /\
  _meta r' = _meta r.

(** ** Sample documents *)

Definition empty_stream : Stream := mkStream 0 [] [].

Definition sample (name_default sourceId centroid : value)
           (number street : string) : Document :=
  mkDocument (VString "osm") (VString "venue") (VString "node:7") sourceId
    (match name_default with
     | VUndefined => []
     | _ => [("default", name_default)]
     end)
    centroid
    (VObject [("number", VString number); ("street", VString street)])
    VUndefined []
    [("id", VString "node:7"); ("type", VString "venue")].

Definition centroid_1_1 : value :=
  VObject [("lat", VNumber 1); ("lon", VNumber 1)].

(** A named POI at "12;14 Main St". *)
Definition cafe : Document :=
  sample (VString "Cafe") (VString "7") centroid_1_1 "12;14" "Main St".

(** An unnamed house at "12 Main St". *)
Definition house : Document :=
  sample VUndefined (VString "7") centroid_1_1 "12" "Main St".

(** The same house, and a named POI, without a centroid: [getCentroid()]
    is then the empty object, as the test [centroid: invalid] of the
    document constructor has it. *)
Definition house_without_centroid : Document :=
  sample VUndefined (VString "7") (VObject []) "12" "Main St".

Definition cafe_without_centroid : Document :=
  sample (VString "Cafe") (VString "7") (VObject []) "12;14" "Main St".

(** A house number with a repeated component. *)
Definition terrace : Document :=
  sample VUndefined (VString "7") centroid_1_1 "1;3;3" "Main St".

(** A house number with a trailing separator, on a blank street. *)
Definition trailing : Document :=
  sample VUndefined (VString "7") centroid_1_1 "12;" " ".

(** ** The claims that do not hold as they are worded *)

(** The decision table with N the number of house-number components. *)
Definition table_cardinality (V : Validators) (doc : Document) (st : Stream)
  : Prop :=
  forall st',
    transform V doc st = Ok st' ->
    List.length (pushed st')
    = (List.length (pushed st)
       + (if valid_address_shape (as_object doc)
          then List.length (components doc) else 0)
       + (if isNamedPoi doc then 1 else 0))%nat.

(** The type of a derived document follows the name of its source:
    "poi-address" for a named POI, "address" otherwise. *)
Definition derived_type_by_name (V : Validators) (doc : Document)
           (st : Stream) : Prop :=
  forall st' derived,
    transform V doc st = Ok st' ->
    pushed st'
    = (pushed st ++ derived ++ (if isNamedPoi doc then [doc] else []))%list ->
    Forall (fun r => getType r = VString (component_type doc)) derived.

(** One derived document per component, named after it. *)
Definition one_document_per_component (V : Validators) (doc : Document)
           (st : Stream) : Prop :=
  forall st' derived,
    transform V doc st = Ok st' ->
    pushed st'
    = (pushed st ++ derived ++ (if isNamedPoi doc then [doc] else []))%list ->
    Forall2 (fun r c =>
               getName r "default"
               = VString (c ++ " " ++ street_name doc)%string)
            derived (components doc).

(** What the [catch] block logs for the outcome of a [try] block. *)
Definition caught (doc : Document) (a : result Document) : list log_entry :=
  match a with
  | Ok _ => []
  | Throw e =>
      [LogMessage "address_extractor error"; LogStack e; LogJSON doc]
  end.

(** The address document built for the first component of [trailing]. *)
Definition trailing_12 : Document :=
  Eval vm_compute in
    match construct strict trailing "address" (VString "7") 0 "12" with
    | Ok r => r
    | Throw _ => trailing
    end.

(** Raw records for the document constructor. *)
Definition empty_record : props := [].

Definition record_at_origin : props :=
  [("id", VNumber 1); ("type", VString "X");
   ("lat", VNumber 0); ("lon", VNumber 0);
   ("centroid", VObject [("lat", VNumber 2); ("lon", VNumber 2)])].

(** ** Measures for the properties of the loop *)

(** How often [c] occurs in [s], and whether it does. *)
Fixpoint count_char (c : ascii) (s : string) : nat :=
  match s with
  | EmptyString => 0%nat
  | String a r => ((if Ascii.eqb a c then 1 else 0) + count_char c r)%nat
  end.

Definition has_char (c : ascii) (s : string) : bool :=
  negb (count_char c s =? 0)%nat.

(** The components whose [try] block threw. *)
Definition failures {A : Type} (outcomes : list (result A)) : nat :=
  List.length (filter (fun a => negb (succeeded a)) outcomes).

(** How far one document advances the counter [idOrdinal]: by one for
    each house-number component when it has a valid address and no
    (truthy) source id. *)
Definition ordinals_used (doc : Document) : Z :=
  if address_check (address doc) && negb (truthy (getSourceId doc))
  then Z.of_nat (List.length (components doc))
  else 0.

(** The document the [try] block holds in [record] when it reaches
    [setProperties]: the identity, the name, the centroid and the source
    id are set, nothing else. *)
Definition before_setProperties (doc : Document) (type : string)
           (base : value) (i : nat) (streetno : string) (street : value)
  : Document :=
  mkDocument (VString "osm") (VString "address")
    (VString (join "-" (newid doc type base i streetno)))
    (getSourceId doc)
    [("default", VString (streetno ++ " " ++ to_string street))]
    (getCentroid doc) (VObject []) VUndefined [] [].

(** ** Metadata *)

(** The loop of [extend] over the properties of an object, and over the
    elements of an array. *)
Definition extend_props : props -> props -> props :=
  fix go (cps : props) (tgt : props) {struct cps} : props :=
    match cps with
    | [] => tgt
    | (k, c) :: r =>
        let old := match lookup k tgt with
                   | Some t => t
                   | None => VUndefined
                   end in
        let x := extend_value c old in
        if is_undefined c then go r tgt else go r (assign k x tgt)
    end.





(** A named POI with tags and node references in its metadata. *)
Definition tagged : Document :=
  mkDocument (VString "osm") (VString "venue") (VString "way:9")
    (VString "9") [("default", VString "Bakery")] centroid_1_1
    (VObject [("number", VString "3"); ("street", VString "High St");
              ("zip", VString "")])
    (VString "GBR") [("admin0", VString "United Kingdom")]
    [("id", VString "way:9"); ("type", VString "venue");
     ("tags", VObject [("shop", VString "bakery"); ("level", VNull)]);
     ("nodes", VArray [VNumber 1; VNumber 2; VObject [("ref", VNumber 3)]])].

(** ** Field copies *)

(** The value [setProperties] stores for an address field: the one the
    source document holds, when reading it does not throw and the document
    type accepts it. *)
Definition accepted_address (V : Validators) (doc : Document) (prop : string)
  : option value :=
  match getAddress doc prop with
  | Ok v => if valid_address V prop v then Some v else None
  | Throw _ => None
  end.

(** One round of the loop over [addrProps], and of the one over
    [adminProps]. *)
Definition copy_address (V : Validators) (doc record : Document)
           (prop : string) : Document :=
  ignoring record (v <- getAddress doc prop ;; setAddress V record prop v).

Definition copy_admin (V : Validators) (doc record : Document)
           (level : string) : Document :=
  ignoring record (setAdmin V record level (getAdmin doc level)).

Definition member (k : string) (l : list string) : bool :=
  existsb (String.eqb k) l.

(** ** The shape of a component *)

Definition first_space (s : string) : bool :=
  match s with
  | EmptyString => false
  | String c _ => is_space c
  end.

Fixpoint last_space (s : string) : bool :=
  match s with
  | EmptyString => false
  | String c EmptyString => is_space c
  | String _ r => last_space r
  end.

(** ** Identifiers *)

(** How [join] prints one element. *)
Definition join_elem (x : value) : string :=
  match x with
  | VUndefined | VNull => ""
  | _ => to_string x
  end.

(** The identifier the [try] block computes for each component in turn,
    the counter standing at [ordinal] before the component with index
    [i]. *)
Fixpoint identifiers (doc : Document) (type : string)
         (ordinal : Z) (i : nat) (streetnumbers : list string)
  : list string :=
  match streetnumbers with
  | [] => []
  | streetno :: rest =>
      let ordinal :=
        if truthy (getSourceId doc) then ordinal else ordinal + 1 in
      let base :=
        if truthy (getSourceId doc) then getSourceId doc
        else VNumber ordinal in
      join "-" (newid doc type base i streetno)
        :: identifiers doc type ordinal (S i) rest
  end.

Fixpoint all_digits (s : string) : bool :=
  match s with
  | EmptyString => true
  | String c r => is_digit c && all_digits r
  end.

(** A string that does not go on with a digit. *)
Definition stops (s : string) : bool :=
  match s with
  | EmptyString => true
  | String c _ => negb (is_digit c)
  end.

(** The terrace without an upstream id. *)
Definition terrace_without_id : Document :=
  sample VUndefined VUndefined centroid_1_1 "1;3;3" "Main St".
(** * Properties *)

(** ** Property reads *)


Lemma string_of_uint_head (d : Decimal.uint) :
  exists c r, NilZero.string_of_uint d = String c r /\ is_digit c = true.
Proof.
  destruct d; simpl; eauto.
Qed.

Lemma decimal_head (i : nat) :
  exists c r, decimal (Z.of_nat i) = String c r /\ is_digit c = true.
Proof.
  unfold decimal.
  destruct (Z.of_nat i) eqn:E; try lia.
  - simpl. eauto.
  - unfold Z.to_int. apply string_of_uint_head.
Qed.

Lemma index_of_head (k : string) (n i : nat) :
  index_of k n = Some i ->
  exists c r, k = String c r /\ is_digit c = true.
Proof.
  unfold index_of. intros H.
  apply find_some in H. destruct H as [_ H].
  apply String.eqb_eq in H. subst k. apply decimal_head.
Qed.

Lemma index_of_name (c : ascii) (r : string) (n : nat) :
  is_digit c = false -> index_of (String c r) n = None.
Proof.
  intros Hc. destruct (index_of (String c r) n) eqn:E; [|reflexivity].
  apply index_of_head in E. destruct E as (c' & r' & Heq & Hd).
  inversion Heq; subst. congruence.
Qed.

Lemma get_object (ps : props) (k : string) :
  get (VObject ps) k
  = Ok (match lookup k ps with Some x => x | None => VUndefined end).
Proof.
  simpl. destruct (lookup k ps); reflexivity.
Qed.

Lemma get_string_length (s : string) :
  get (VString s) "length" = Ok (VNumber (Z.of_nat (String.length s))).
Proof. reflexivity. Qed.

Lemma truthy_length (s : string) :
  truthy (VNumber (Z.of_nat (String.length s))) = negb (String.eqb s "").
Proof.
  destruct s; reflexivity.
Qed.

(** A property whose name starts with a letter, other than [length], is
    found on plain objects only. *)
Lemma get_named_primitive (v : value) (c : ascii) (r : string) :
  is_digit c = false ->
  String.eqb (String c r) "length" = false ->
  match v with VObject _ | VUndefined | VNull => False | _ => True end ->
  get v (String c r) = Ok VUndefined.
Proof.
  intros Hc Hl Hv.
  destruct v; unfold get; try contradiction; try reflexivity;
    rewrite Hl, (index_of_name c r _ Hc); reflexivity.
Qed.


Lemma hasValidAddress_object (ps : props) :
  hasValidAddress (VObject ps)
  = Ok (address_check
          (match lookup "address" ps with
           | Some x => x
           | None => VUndefined
           end)).
Proof.
  unfold hasValidAddress.
  change (isObject (VObject ps)) with true. cbv iota beta. simpl negb.
  cbv iota. rewrite get_object. unfold bind at 1.
  destruct (match lookup "address" ps with
            | Some x => x
            | None => VUndefined
            end) as [ | | b | n | s | aps | l ]; try reflexivity.
  - (* an object *)
    change (isObject (VObject aps)) with true. simpl negb. cbv iota.
    rewrite !get_object. unfold bind at 1. unfold address_check.
    destruct (lookup "number" aps) as [[ | | ? | ? | number | ? | ? ]|];
      try reflexivity.
    simpl typeof. simpl negb. cbv iota. unfold bind at 1.
    destruct (lookup "street" aps) as [[ | | ? | ? | street | ? | ? ]|];
      try (simpl; rewrite ?andb_false_r; reflexivity).
    simpl typeof. simpl negb. cbv iota.
    rewrite !get_string_length. unfold bind. rewrite !truthy_length.
    destruct (String.eqb number ""), (String.eqb street ""); reflexivity.
  - (* an array *)
    change (isObject (VArray l)) with true. simpl negb. cbv iota.
    rewrite (get_named_primitive (VArray l) "n" "umber")
      by (reflexivity || exact I).
    reflexivity.
Qed.

Lemma valid_address_shape_object (ps : props) :
  valid_address_shape (VObject ps)
  = address_check
      (match lookup "address" ps with
       | Some x => x
       | None => VUndefined
       end).
Proof.
  unfold valid_address_shape. rewrite get_object.
  destruct (match lookup "address" ps with
            | Some x => x
            | None => VUndefined
            end) as [ | | b | n | s | aps | l ]; try reflexivity.
  - unfold nonempty_string_field.
    rewrite (get_named_primitive (VString s) "n" "umber")
      by (reflexivity || exact I).
    reflexivity.
  - unfold nonempty_string_field, address_check. rewrite !get_object.
    simpl negb. rewrite andb_true_l.
    destruct (lookup "number" aps) as [[ | | ? | ? | number | ? | ? ]|];
      try reflexivity;
    destruct (lookup "street" aps) as [[ | | ? | ? | street | ? | ? ]|];
      rewrite ?andb_false_r; reflexivity.
  - unfold nonempty_string_field.
    rewrite (get_named_primitive (VArray l) "n" "umber")
      by (reflexivity || exact I).
    reflexivity.
Qed.

(** ** hasValidAddress *)

(** No property read of [hasValidAddress] throws. *)
Lemma hasValidAddress_returns (doc : value) :
  exists b, hasValidAddress doc = Ok b.
Proof.
  destruct doc as [ | | b | n | s | ps | l ];
    try (exists false; reflexivity).
  - rewrite hasValidAddress_object. eauto.
  - exists false. unfold hasValidAddress.
    rewrite (get_named_primitive (VArray l) "a" "ddress")
      by (reflexivity || exact I).
    reflexivity.
Qed.

(** C8.  For every document, [hasValidAddress] returns true exactly when
    [doc.address] exists and both [doc.address.number] and
    [doc.address.street] are non-empty strings; for every other shape
    (missing address, a number or street that is not a string, empty
    strings) it returns false. *)
Theorem hasValidAddress_shape (doc : value) :
  hasValidAddress doc = Ok (valid_address_shape doc).
Proof.
  destruct doc as [ | | b | n | s | ps | l ]; try reflexivity.
  - (* a string: it has no address property *)
    unfold valid_address_shape.
    rewrite (get_named_primitive (VString s) "a" "ddress")
      by (reflexivity || exact I).
    reflexivity.
  - rewrite hasValidAddress_object, valid_address_shape_object.
    reflexivity.
  - unfold hasValidAddress, valid_address_shape.
    rewrite (get_named_primitive (VArray l) "a" "ddress")
      by (reflexivity || exact I).
    reflexivity.
Qed.

(** C10.  [hasValidAddress] never throws: it returns a boolean on every
    argument, and that boolean is false for every argument that is not an
    object and for every object whose address is not an object. *)
Theorem hasValidAddress_total (doc : value) :
  (exists b, hasValidAddress doc = Ok b) /\
  (isObject doc = false -> hasValidAddress doc = Ok false) /\
  (forall addr,
      isObject doc = true -> get doc "address" = Ok addr ->
      isObject addr = false -> hasValidAddress doc = Ok false).
Proof.
  split; [|split].
  - apply hasValidAddress_returns.
  - intros H. unfold hasValidAddress. rewrite H. reflexivity.
  - intros addr Hd Hg Ha. unfold hasValidAddress.
    rewrite Hd, Hg. simpl. rewrite Ha. reflexivity.
Qed.

Lemma hasValidAddress_total_witness :
  hasValidAddress (VNumber 7) = Ok false /\
  hasValidAddress (VObject [("address", VString "12 Main St")]) = Ok false.
Proof.
  split.
  - apply (proj1 (proj2 (hasValidAddress_total (VNumber 7)))).
    reflexivity.
  - apply (proj2 (proj2 (hasValidAddress_total
                           (VObject [("address", VString "12 Main St")])))
             (VString "12 Main St")); reflexivity.
Defined.

(** ** The address loop *)

Section Loop.

Variable V : Validators.
Variable doc : Document.
Variable type : string.

Lemma with_meta_idempotent (r : Document) :
  with_meta doc (with_meta doc r) = with_meta doc r.
Proof. reflexivity. Qed.

(** The loop only appends to what was pushed, and what it appends is
    decided by the outcomes of the [try] blocks. *)
Lemma forEach_pushed (streetnumbers : list string) :
  forall (i : nat) (st : Stream) (record : option Document),
    pushed (fst (forEach V doc type i streetnumbers (st, record)))
    = (pushed st
         ++ carried doc record
              (attempts V doc type (idOrdinal st) i streetnumbers))%list.
Proof.
  induction streetnumbers as [|streetno rest IH]; intros i st record.
  - simpl. rewrite app_nil_r. reflexivity.
  - cbn [forEach].
    destruct (streetnumber V doc type i streetno (st, record))
      as [st1 record1] eqn:E.
    rewrite IH. clear IH. cbn [attempts carried].
    unfold streetnumber in E.
    destruct (construct V doc type _ i streetno) as [r|e].
    + inversion E; subst; clear E.
      cbn [fst pushed idOrdinal push].
      rewrite <- app_assoc. reflexivity.
    + destruct record as [r|]; inversion E; subst; clear E.
      * cbn [fst pushed idOrdinal push].
        rewrite <- app_assoc. reflexivity.
      * reflexivity.
Qed.

Lemma carried_length (outcomes : list (result Document)) :
  forall record,
    (List.length (carried doc record outcomes) <= List.length outcomes)%nat.
Proof.
  induction outcomes as [|a rest IH]; intros record; simpl.
  - lia.
  - destruct a as [r|e]; [|destruct record as [r|]]; simpl;
      match goal with
      | |- context [carried doc ?x rest] => specialize (IH x)
      end; lia.
Qed.

Lemma carried_all_built (outcomes : list (result Document)) :
  forallb succeeded outcomes = true ->
  forall record,
    carried doc record outcomes = map (with_meta doc) (built outcomes).
Proof.
  induction outcomes as [|a rest IH]; intros Hall record; simpl.
  - reflexivity.
  - destruct a as [r|e]; simpl in Hall; [|discriminate].
    rewrite (IH Hall). reflexivity.
Qed.

Lemma built_length (outcomes : list (result Document)) :
  forallb succeeded outcomes = true ->
  List.length (built outcomes) = List.length outcomes.
Proof.
  induction outcomes as [|[r|e] rest IH]; simpl; intros H;
    try discriminate; auto.
Qed.

Lemma attempts_length (streetnumbers : list string) :
  forall ordinal i,
    List.length (attempts V doc type ordinal i streetnumbers)
    = List.length streetnumbers.
Proof.
  induction streetnumbers; intros; simpl; auto.
Qed.

(** Each outcome is that of the [try] block on one of the components. *)
Lemma attempts_In (streetnumbers : list string) :
  forall ordinal i a,
    In a (attempts V doc type ordinal i streetnumbers) ->
    exists base j streetno,
      nth_error streetnumbers j = Some streetno /\
      a = construct V doc type base (i + j) streetno.
Proof.
  induction streetnumbers as [|streetno rest IH]; intros ordinal i a H.
  - destruct H.
  - cbn [attempts] in H. destruct H as [H|H].
    + eexists _, 0%nat, streetno. split; [reflexivity|].
      rewrite Nat.add_0_r. symmetry. exact H.
    + apply IH in H. destruct H as (base & j & s & Hn & Ha).
      exists base, (S j), s. split; [exact Hn|].
      rewrite Nat.add_succ_r. exact Ha.
Qed.

(** Every document the loop pushes was built by a [try] block of this
    call, or is the one [record] held on entry. *)
Lemma carried_In (outcomes : list (result Document)) :
  forall record x,
    In x (carried doc record outcomes) ->
    (exists r, In (Ok r) outcomes /\ x = with_meta doc r) \/
    (exists r, record = Some r /\ x = with_meta doc r).
Proof.
  induction outcomes as [|a rest IH]; intros record x H.
  - destruct H.
  - cbn [carried] in H.
    destruct a as [r|e].
    + destruct H as [H|H].
      * left. exists r. split; [left; reflexivity|congruence].
      * apply IH in H. destruct H as [(r' & Hin & Hx)|(r' & Hr & Hx)].
        -- left. exists r'. split; [right; exact Hin|exact Hx].
        -- left. exists r. split; [left; reflexivity|].
           inversion Hr; subst. apply with_meta_idempotent.
    + destruct record as [r|].
      * destruct H as [H|H].
        -- right. exists r. split; congruence.
        -- apply IH in H.
           destruct H as [(r' & Hin & Hx)|(r' & Hr & Hx)].
           ++ left. exists r'. split; [right; exact Hin|exact Hx].
           ++ right. exists r. split; [reflexivity|].
              inversion Hr; subst. apply with_meta_idempotent.
      * apply IH in H. destruct H as [(r' & Hin & Hx)|(r' & Hr & Hx)].
        -- left. exists r'. split; [right; exact Hin|exact Hx].
        -- discriminate.
Qed.

End Loop.

(** ** Building one address document *)

Section Construct.

Variable V : Validators.

Lemma same_identity_refl (r : Document) : same_identity r r.
Proof. repeat split. Qed.

Lemma same_identity_trans (r1 r2 r3 : Document) :
  same_identity r1 r2 -> same_identity r2 r3 -> same_identity r1 r3.
Proof.
  unfold same_identity. intros H1 H2.
  destruct H1 as (?&?&?&?&?&?&?), H2 as (?&?&?&?&?&?&?).
  repeat split; congruence.
Qed.

Lemma setAddress_identity (r r' : Document) (prop : string) (v : value) :
  setAddress V r prop v = Ok r' -> same_identity r r'.
Proof.
  unfold setAddress.
  destruct (valid_address V prop v); [|discriminate].
  destruct (address r); try discriminate.
  intros H; inversion H; subst. repeat split.
Qed.

Lemma setAlpha3_identity (r r' : Document) (v : value) :
  setAlpha3 V r v = Ok r' -> same_identity r r'.
Proof.
  unfold setAlpha3. destruct (valid_alpha3 V v); [|discriminate].
  intros H; inversion H; subst. repeat split.
Qed.

Lemma setAdmin_identity (r r' : Document) (prop : string) (v : value) :
  setAdmin V r prop v = Ok r' -> same_identity r r'.
Proof.
  unfold setAdmin. destruct (valid_admin V prop v); [|discriminate].
  intros H; inversion H; subst. repeat split.
Qed.

Lemma fold_identity {A : Type} (f : Document -> A -> Document)
      (l : list A) :
  (forall r a, same_identity r (f r a)) ->
  forall r, same_identity r (fold_left f l r).
Proof.
  intros Hf. induction l as [|a l IH]; intros r; simpl.
  - apply same_identity_refl.
  - eapply same_identity_trans; [apply Hf|apply IH].
Qed.

(** [setProperties] touches the address, the country code and the
    administrative fields only. *)
Lemma setProperties_identity (record doc : Document) :
  same_identity record (setProperties V record doc).
Proof.
  unfold setProperties.
  set (r1 := fold_left _ addrProps record).
  set (r2 := ignoring r1 (setAlpha3 V r1 (getAlpha3 doc))).
  apply same_identity_trans with r1;
    [|apply same_identity_trans with r2].
  - apply fold_identity.
    intros r prop. unfold ignoring, getAddress.
    destruct (get (address doc) prop) as [v|e]; simpl.
    + destruct (setAddress V r prop v) eqn:E.
      * eapply setAddress_identity; eassumption.
      * apply same_identity_refl.
    + apply same_identity_refl.
  - unfold r2, ignoring.
    destruct (setAlpha3 V r1 (getAlpha3 doc)) eqn:E.
    + eapply setAlpha3_identity; eassumption.
    + apply same_identity_refl.
  - apply fold_identity.
    intros r level. unfold ignoring.
    destruct (setAdmin V r level (getAdmin doc level)) eqn:E.
    + eapply setAdmin_identity; eassumption.
    + apply same_identity_refl.
Qed.

(** What a successful [try] block has built. *)
Lemma construct_Ok (doc : Document) (type : string) (base : value)
      (i : nat) (streetno : string) (r : Document) :
  construct V doc type base i streetno = Ok r ->
  exists street,
    get (address doc) "street" = Ok street /\
    getSource r = VString "osm" /\
    getType r = VString "address" /\
    getId r = VString (join "-" (newid doc type base i streetno)) /\
    getName r "default" = VString (streetno ++ " " ++ to_string street) /\
    getCentroid r = getCentroid doc /\
    getSourceId r = getSourceId doc.
Proof.
  unfold construct, Document_new.
  destruct (valid_document V _ _ _); [|discriminate].
  cbn [bind]. change (get (as_object doc) "address")
    with (Ok (A:=value) (address doc)).
  cbn [bind].
  destruct (get (address doc) "street") as [street|e]; [|discriminate].
  cbn [bind]. unfold setName. cbn [getSource getType getId getSourceId
    name getCentroid address getAlpha3 admin _meta].
  destruct (valid_name V _ _); [|discriminate].
  cbn [bind]. unfold setCentroid. cbn [getSource getType getId getSourceId
    name getCentroid address getAlpha3 admin _meta].
  destruct (valid_centroid V _); [|discriminate].
  cbn [bind]. unfold setSourceId. cbn [getSource getType getId getSourceId
    name getCentroid address getAlpha3 admin _meta].
  destruct (valid_sourceId V _); [|discriminate].
  cbn [bind]. intros H. inversion H as [Hr]. clear H.
  match goal with
  | |- context [setProperties V ?r0 doc] =>
      destruct (setProperties_identity r0 doc)
        as (Hs & Ht & Hi & Hsi & Hn & Hc & _)
  end.
  exists street. split; [reflexivity|].
  unfold getName. rewrite Hs, Ht, Hi, Hsi, Hn, Hc. cbn.
  repeat split; reflexivity.
Qed.

End Construct.

(** ** The transform function *)

Lemma as_object_address (doc : Document) :
  get (as_object doc) "address" = Ok (address doc).
Proof. reflexivity. Qed.

Lemma hasValidAddress_document (doc : Document) :
  hasValidAddress (as_object doc) = Ok (address_check (address doc)).
Proof.
  unfold as_object. rewrite hasValidAddress_object. reflexivity.
Qed.

Lemma valid_address_shape_document (doc : Document) :
  valid_address_shape (as_object doc) = address_check (address doc).
Proof.
  unfold as_object. rewrite valid_address_shape_object. reflexivity.
Qed.

(** With a valid address, number and street are non-empty strings. *)
Lemma address_check_fields (doc : Document) :
  address_check (address doc) = true ->
  get (address doc) "number" = Ok (VString (house_number doc)) /\
  get (address doc) "street" = Ok (VString (street_name doc)) /\
  house_number doc <> "" /\ street_name doc <> "".
Proof.
  unfold address_check, house_number, street_name.
  destruct (address doc) as [ | | ? | ? | ? | aps | ? ]; try discriminate.
  rewrite !get_object.
  destruct (lookup "number" aps) as [[ | | ? | ? | number | ? | ? ]|];
    try discriminate.
  destruct (lookup "street" aps) as [[ | | ? | ? | street | ? | ? ]|];
    try discriminate.
  intros H. apply andb_prop in H. destruct H as [Hn Hs].
  repeat split; intros ->; discriminate.
Qed.

Lemma streetnumbers_components (doc : Document) :
  address_check (address doc) = true ->
  streetnumbers doc = Ok (components doc).
Proof.
  intros H. apply address_check_fields in H. destruct H as (Hn & _).
  unfold streetnumbers. rewrite as_object_address. cbn [bind].
  rewrite Hn. reflexivity.
Qed.

(** The transform function never throws; it appends to what was pushed the
    documents of the address loop, then the document itself when it is a
    named POI. *)
Lemma transform_outcome (V : Validators) (doc : Document) (st : Stream) :
  exists st',
    transform V doc st = Ok st' /\
    pushed st'
    = (pushed st
         ++ (if address_check (address doc)
             then carried doc None
                    (attempts V doc (component_type doc) (idOrdinal st) 0
                       (components doc))
             else [])
         ++ (if isNamedPoi doc then [doc] else []))%list.
Proof.
  unfold transform. rewrite hasValidAddress_document. cbn [bind].
  destruct (address_check (address doc)) eqn:Hv.
  - rewrite (streetnumbers_components doc Hv). cbn [bind].
    eexists. split; [reflexivity|].
    fold (component_type doc).
    assert (Hp := forEach_pushed V doc (component_type doc)
                    (components doc) 0 st None).
    unfold component_type in *. unfold isNamedPoi.
    destruct (truthy (getName doc "default")).
    + cbn [pushed push]. rewrite Hp. rewrite <- app_assoc. reflexivity.
    + rewrite Hp. rewrite app_nil_r. reflexivity.
  - cbn [bind]. eexists. split; [reflexivity|].
    destruct (isNamedPoi doc); cbn [pushed push app].
    + reflexivity.
    + rewrite app_nil_r. reflexivity.
Qed.

(** The stream throws on no sequence of documents. *)
Lemma run_returns (V : Validators) (docs : list Document) :
  forall st, exists st', run V docs st = Ok st'.
Proof.
  induction docs as [|doc rest IH]; intros st; cbn [run].
  - eauto.
  - destruct (transform_outcome V doc st) as (st1 & Ht & _).
    rewrite Ht. cbn [bind]. apply IH.
Qed.

(** Every document of the address loop was built from the source document
    for one of its components. *)
Lemma carried_derived (V : Validators) (doc : Document) (ordinal : Z) :
  Forall (derived_from V doc (components doc))
         (carried doc None
            (attempts V doc (component_type doc) ordinal 0 (components doc))).
Proof.
  apply Forall_forall. intros x Hx.
  apply carried_In in Hx.
  destruct Hx as [(r & Hin & Hx)|(r & Hr & _)]; [|discriminate].
  apply attempts_In in Hin.
  destruct Hin as (base & j & streetno & Hn & Ha).
  exists base, j, streetno, r. repeat split; [exact Hn| |exact Hx].
  symmetry. exact Ha.
Qed.

(** The name of what is built for each component, when all are built. *)
Lemma built_names (V : Validators) (doc : Document) (type : string)
      (streetnumbers : list string) :
  forall ordinal i,
    forallb succeeded (attempts V doc type ordinal i streetnumbers) = true ->
    Forall2 (fun r c =>
               exists street,
                 get (address doc) "street" = Ok street /\
                 getName r "default"
                 = VString (c ++ " " ++ to_string street)%string)
            (built (attempts V doc type ordinal i streetnumbers))
            streetnumbers.
Proof.
  induction streetnumbers as [|c rest IH]; intros ordinal i H.
  - constructor.
  - cbn [attempts] in *. cbn [forallb] in H.
    apply andb_prop in H. destruct H as [Hc Hrest].
    destruct (construct V doc type _ i c) as [r|e] eqn:E; [|discriminate].
    cbn [built]. constructor; [|apply IH; exact Hrest].
    apply construct_Ok in E. destruct E as (street & Hs & _ & _ & _ & Hn & _).
    exists street. split; assumption.
Qed.

(** The outcome of the transform function, with the documents derived from
    the address set apart. *)
Lemma transform_derived (V : Validators) (doc : Document) (st : Stream) :
  exists derived st',
    transform V doc st = Ok st' /\
    pushed st'
    = (pushed st ++ derived ++ (if isNamedPoi doc then [doc] else []))%list /\
    Forall (derived_from V doc (components doc)) derived /\
    derived
    = (if address_check (address doc)
       then carried doc None
              (attempts V doc (component_type doc) (idOrdinal st) 0
                 (components doc))
       else []).
Proof.
  destruct (transform_outcome V doc st) as (st' & Ht & Hp).
  eexists _, st'. split; [exact Ht|]. split; [exact Hp|].
  split; [|reflexivity].
  destruct (address_check (address doc)).
  - apply carried_derived.
  - constructor.
Qed.

(** ** The decision table *)

(** C1, amended.  For every input document the stream pushes the documents
    derived from the address, then the document itself exactly when it is
    a named POI.  Without a valid address nothing is derived: the output
    is empty for an unnamed document and the original alone for a named
    POI.  With a valid address there are N derived documents, N the number
    of house-number components, when the construction of every component
    succeeds, and never more than N. *)
Theorem decision_table (V : Validators) (doc : Document) (st : Stream) :
  exists valid derived st',
    hasValidAddress (as_object doc) = Ok valid /\
    transform V doc st = Ok st' /\
    pushed st'
    = (pushed st ++ derived ++ (if isNamedPoi doc then [doc] else []))%list /\
    if valid
    then streetnumbers doc = Ok (components doc) /\
         if forallb succeeded
              (attempts V doc (component_type doc) (idOrdinal st) 0
                 (components doc))
         then List.length derived = List.length (components doc)
         else (List.length derived <= List.length (components doc))%nat
    else derived = [].
Proof.
  destruct (transform_derived V doc st) as (derived & st' & Ht & Hp & _ & Hd).
  exists (address_check (address doc)), derived, st'.
  split; [apply hasValidAddress_document|].
  split; [exact Ht|]. split; [exact Hp|].
  destruct (address_check (address doc)) eqn:Hv; [|exact Hd].
  split; [apply streetnumbers_components; exact Hv|].
  subst derived.
  destruct (forallb succeeded _) eqn:Hall.
  - rewrite (carried_all_built doc _ Hall), length_map.
    rewrite (built_length _ Hall). apply attempts_length.
  - etransitivity; [apply carried_length|].
    rewrite attempts_length. apply Nat.le_refl.
Qed.

(** A house with a valid address and no centroid: the document type
    rejects the empty centroid, the one component is skipped and nothing is
    pushed, where the table asks for one document. *)
Lemma table_cardinality_fails :
  ~ table_cardinality strict house_without_centroid empty_stream.
Proof.
  unfold table_cardinality. intros H.
  specialize (H _ eq_refl). vm_compute in H. discriminate.
Qed.

(** ** The type of the derived documents *)

(** C3, amended.  Every document derived from an address has the document
    type "address", whether its source is a named POI or not; "poi-address"
    (for a named POI) or "address" is the third segment of its identifier
    only. *)
Theorem derived_type_address (V : Validators) (doc : Document)
        (st : Stream) :
  exists derived st',
    transform V doc st = Ok st' /\
    pushed st'
    = (pushed st ++ derived ++ (if isNamedPoi doc then [doc] else []))%list /\
    Forall (fun r =>
              getType r = VString "address" /\
              exists base i streetno,
                getId r
                = VString
                    (join "-"
                       (newid doc
                          (if isNamedPoi doc then "poi-address"
                           else "address")
                          base i streetno)))
           derived.
Proof.
  destruct (transform_derived V doc st) as (derived & st' & Ht & Hp & Hf & _).
  exists derived, st'. split; [exact Ht|]. split; [exact Hp|].
  eapply Forall_impl; [|exact Hf].
  intros x (base & i & streetno & r & _ & Hc & ->).
  apply construct_Ok in Hc.
  destruct Hc as (_ & _ & _ & Hty & Hid & _).
  split; [exact Hty|].
  exists base, i, streetno. exact Hid.
Qed.

(** The cafe is a named POI with a valid address; its two address
    documents have the type "address", not "poi-address". *)
Lemma derived_type_by_name_fails :
  ~ derived_type_by_name strict cafe empty_stream.
Proof.
  unfold derived_type_by_name. intros H.
  destruct (transform strict cafe empty_stream) as [st'|e] eqn:E;
    [|discriminate E].
  vm_compute in E. inversion E as [E']. clear E.
  specialize (H st' (firstn 2 (pushed st')) eq_refl).
  subst st'. specialize (H eq_refl).
  inversion H as [|? ? Hty _]. vm_compute in Hty. discriminate Hty.
Qed.

(** ** House numbers and names *)

(** C6, amended.  For every input document with a valid address the house
    number is split on [;] and each component trimmed; every derived
    document is named by one of these components, a single space and the
    street of the source document; and when the construction of every
    component succeeds there is one derived document per component, in
    order, each named by its own component. *)
Theorem component_names (V : Validators) (doc : Document) (st : Stream) :
  hasValidAddress (as_object doc) = Ok true ->
  exists derived st',
    transform V doc st = Ok st' /\
    pushed st'
    = (pushed st ++ derived ++ (if isNamedPoi doc then [doc] else []))%list /\
    streetnumbers doc = Ok (map trim (split ";" (house_number doc))) /\
    Forall (fun r =>
              exists c,
                In c (map trim (split ";" (house_number doc))) /\
                getName r "default"
                = VString (c ++ " " ++ street_name doc)%string)
           derived /\
    if forallb succeeded
         (attempts V doc (component_type doc) (idOrdinal st) 0
            (components doc))
    then Forall2 (fun r c =>
                    getName r "default"
                    = VString (c ++ " " ++ street_name doc)%string)
                 derived (map trim (split ";" (house_number doc)))
    else True.
Proof.
  rewrite hasValidAddress_document. intros Hv.
  assert (Hv' : address_check (address doc) = true) by congruence.
  clear Hv.
  destruct (address_check_fields doc Hv') as (_ & Hstreet & _ & _).
  destruct (transform_derived V doc st) as (derived & st' & Ht & Hp & Hf & Hd).
  exists derived, st'. split; [exact Ht|]. split; [exact Hp|].
  split; [apply streetnumbers_components; exact Hv'|].
  split.
  - eapply Forall_impl; [|exact Hf].
    intros x (base & i & streetno & r & Hn & Hc & ->).
    exists streetno. split; [eapply nth_error_In; exact Hn|].
    apply construct_Ok in Hc.
    destruct Hc as (street & Hs & _ & _ & _ & Hname & _).
    rewrite Hstreet in Hs. inversion Hs; subst street. exact Hname.
  - destruct (forallb succeeded _) eqn:Hall; [|exact I].
    rewrite Hv' in Hd. subst derived.
    rewrite (carried_all_built doc _ Hall).
    apply built_names in Hall.
    fold (components doc).
    revert Hall. generalize (components doc).
    generalize (built (attempts V doc (component_type doc) (idOrdinal st) 0
                         (components doc))).
    intros rs cs H. induction H as [|r c rs' cs' (street & Hs & Hn) _ IH].
    + constructor.
    + cbn [map]. constructor; [|exact IH].
      rewrite Hstreet in Hs. inversion Hs; subst street. exact Hn.
Qed.

Lemma component_names_witness :
  exists derived st',
    transform strict cafe empty_stream = Ok st' /\
    pushed st' = ([] ++ derived ++ [cafe])%list /\
    streetnumbers cafe = Ok ["12"; "14"] /\
    Forall (fun r =>
              exists c,
                In c ["12"; "14"] /\
                getName r "default" = VString (c ++ " Main St")%string)
           derived /\
    Forall2 (fun r c =>
               getName r "default" = VString (c ++ " Main St")%string)
            derived ["12"; "14"].
Proof.
  exact (component_names strict cafe empty_stream eq_refl).
Defined.

(** The cafe without a centroid has the two components "12" and "14", and
    no address document is derived from it. *)
Lemma one_document_per_component_fails :
  ~ one_document_per_component strict cafe_without_centroid empty_stream.
Proof.
  unfold one_document_per_component. intros H.
  destruct (transform strict cafe_without_centroid empty_stream)
    as [st'|e] eqn:E; [|discriminate E].
  vm_compute in E. inversion E as [E']. clear E.
  specialize (H st' [] eq_refl).
  subst st'. specialize (H eq_refl).
  vm_compute in H. inversion H.
Qed.

(** ** Emission order *)

(** C7.  When the input document is a named POI, it is the last document
    pushed for it: every document derived from its address comes before
    it in the output. *)
Theorem addresses_before_original (V : Validators) (doc : Document)
        (st : Stream) :
  isNamedPoi doc = true ->
  exists derived st',
    transform V doc st = Ok st' /\
    pushed st' = (pushed st ++ derived ++ [doc])%list /\
    Forall (derived_from V doc (components doc)) derived.
Proof.
  intros Hn.
  destruct (transform_derived V doc st) as (derived & st' & Ht & Hp & Hf & _).
  rewrite Hn in Hp. eauto.
Qed.

Lemma addresses_before_original_witness :
  exists derived st',
    transform strict cafe empty_stream = Ok st' /\
    pushed st' = ([] ++ derived ++ [cafe])%list /\
    Forall (derived_from strict cafe ["12"; "14"]) derived.
Proof.
  exact (addresses_before_original strict cafe empty_stream eq_refl).
Defined.

(** ** A component whose construction throws *)

Lemma forEach_logged (V : Validators) (doc : Document) (type : string)
      (streetnumbers : list string) :
  forall (i : nat) (st : Stream) (record : option Document),
    logged (fst (forEach V doc type i streetnumbers (st, record)))
    = (logged st
         ++ flat_map (caught doc)
              (attempts V doc type (idOrdinal st) i streetnumbers))%list.
Proof.
  induction streetnumbers as [|streetno rest IH]; intros i st record.
  - simpl. rewrite app_nil_r. reflexivity.
  - cbn [forEach].
    destruct (streetnumber V doc type i streetno (st, record))
      as [st1 record1] eqn:E.
    rewrite IH. clear IH. cbn [attempts flat_map].
    unfold streetnumber in E.
    destruct (construct V doc type _ i streetno) as [r|e].
    + inversion E; subst; clear E.
      cbn [fst logged idOrdinal push caught app]. reflexivity.
    + destruct record as [r|]; inversion E; subst; clear E;
        cbn [fst logged idOrdinal push caught];
        rewrite <- app_assoc; reflexivity.
Qed.

(** C4, on the code.  A document with two house-number components: when
    the first is built and the construction of the second throws, the
    error is logged with the source document, and the document built for
    the first component is pushed a second time in place of the failed
    one. *)
Theorem failed_component_repeats_record
        (V : Validators) (doc : Document) (st : Stream)
        (c0 c1 : string) (r : Document) (e : error) :
  hasValidAddress (as_object doc) = Ok true ->
  isNamedPoi doc = false ->
  components doc = [c0; c1] ->
  attempts V doc "address" (idOrdinal st) 0 [c0; c1] = [Ok r; Throw e] ->
  exists st',
    transform V doc st = Ok st' /\
    pushed st' = (pushed st ++ [with_meta doc r; with_meta doc r])%list /\
    logged st'
    = (logged st ++ [LogMessage "address_extractor error";
                     LogStack e; LogJSON doc])%list.
Proof.
  rewrite hasValidAddress_document. intros Hv Hn Hc Ha.
  assert (Hv' : address_check (address doc) = true) by congruence.
  unfold transform. rewrite hasValidAddress_document, Hv'. cbn [bind].
  rewrite (streetnumbers_components doc Hv'), Hc, Hn. cbn [bind].
  eexists. split; [reflexivity|].
  rewrite forEach_pushed, forEach_logged, Ha. split; reflexivity.
Qed.

Lemma failed_component_repeats_record_witness :
  exists st',
    transform strict trailing empty_stream = Ok st' /\
    pushed st'
    = ([] ++ [with_meta trailing trailing_12;
              with_meta trailing trailing_12])%list /\
    logged st'
    = ([] ++ [LogMessage "address_extractor error";
              LogStack (PeliasModelError "name"); LogJSON trailing])%list.
Proof.
  exact (failed_component_repeats_record strict trailing empty_stream
           "12" "" trailing_12 (PeliasModelError "name")
           eq_refl eq_refl eq_refl eq_refl).
Defined.

(** ** Derived identities *)

(** C5, on the code.  The house number "1;3;3" of a document with an
    upstream id: all three address documents are built, and the second and
    the third carry the same identifier. *)
Theorem repeated_component_shares_identity :
  exists st',
    transform strict terrace empty_stream = Ok st' /\
    map getId (pushed st')
    = [VString "osm-venue-address-7"; VString "osm-venue-address-7-3";
       VString "osm-venue-address-7-3"] /\
    map (fun r => getName r "default") (pushed st')
    = [VString "1 Main St"; VString "3 Main St"; VString "3 Main St"] /\
    logged st' = [].
Proof.
  eexists. split; [vm_compute; reflexivity|].
  repeat split; reflexivity.
Qed.

(** ** The document constructor *)

(** C2.  For every raw record whose document cannot be built (the
    constructor or a setter throws), the stream throws nothing, pushes no
    document for the record and goes on with the next record.  The empty
    record is such a record for a document type that asks for an id. *)
Theorem construction_failure_dropped
        (V : Validators) (item : props) (rest : list props)
        (st : Constructed) (e : error) :
  build_document V item = Throw e ->
  exists st',
    document_constructor V item st = Ok st' /\
    documents st' = documents st /\
    construct_all V (item :: rest) st = construct_all V rest st'.
Proof.
  intros H. cbn [construct_all]. unfold document_constructor.
  rewrite H. eexists. repeat split.
Qed.

Lemma construction_failure_dropped_witness :
  exists st',
    document_constructor strict empty_record (mkConstructed [] []) = Ok st' /\
    documents st' = [] /\
    construct_all strict [empty_record; record_at_origin]
      (mkConstructed [] [])
    = construct_all strict [record_at_origin] st'.
Proof.
  exact (construction_failure_dropped strict empty_record
           [record_at_origin] (mkConstructed [] [])
           (PeliasModelError "document") eq_refl).
Defined.

Lemma setMeta_centroid (V : Validators) (doc doc' : Document)
      (prop : string) (v : value) :
  setMeta V doc prop v = Ok doc' -> getCentroid doc' = getCentroid doc.
Proof.
  unfold setMeta. destruct (valid_meta V prop v); [|discriminate].
  intros H. inversion H. reflexivity.
Qed.

(** C9.  For every raw record that has both [lat] and [lon], the document
    built has the centroid made of these two, whatever the record's
    [centroid] field holds, and the document type accepting the arguments
    is all it takes for the document to be built; so with [lat] and [lon]
    zero the centroid is [{lat: 0, lon: 0}]. *)
Theorem centroid_prefers_lat_lon
        (V : Validators) (item : props) (lat lon : value) :
  lookup "lat" item = Some lat ->
  lookup "lon" item = Some lon ->
  (forall doc,
      build_document V item = Ok doc ->
      getCentroid doc = VObject [("lat", lat); ("lon", lon)]) /\
  (valid_document V (VString "osm")
     (if has_key "type" item then field item "type" else VString "venue")
     (field item "id") = true ->
   valid_centroid V (VObject [("lat", lat); ("lon", lon)]) = true ->
   (forall prop v, valid_meta V prop v = true) ->
   exists doc,
     build_document V item = Ok doc /\
     getCentroid doc = VObject [("lat", lat); ("lon", lon)]).
Proof.
  intros Hlat Hlon.
  assert (Hgen : forall doc,
             build_document V item = Ok doc ->
             getCentroid doc = VObject [("lat", lat); ("lon", lon)]).
  { intros doc. unfold build_document, Document_new, has_key, field.
    rewrite Hlat, Hlon. cbn [andb].
    destruct (valid_document V _ _ _); [|discriminate].
    cbn [bind]. unfold setCentroid.
    destruct (valid_centroid V _); [|discriminate].
    cbn [bind].
    match goal with
    | |- context [bind ?m _] => destruct m as [d1|] eqn:E1; [|discriminate]
    end.
    cbn [bind].
    match goal with
    | |- context [bind ?m _] => destruct m as [d2|] eqn:E2; [|discriminate]
    end.
    cbn [bind]. intros H. inversion H; subst doc. clear H.
    assert (H2 : getCentroid d2 = getCentroid d1).
    { destruct (lookup "tags" item);
        [eapply setMeta_centroid; exact E2|congruence]. }
    assert (H1 : getCentroid d1 = VObject [("lat", lat); ("lon", lon)]).
    { destruct (lookup "nodes" item).
      - apply setMeta_centroid in E1. rewrite E1. reflexivity.
      - inversion E1. reflexivity. }
    congruence. }
  split; [exact Hgen|].
  intros Hd Hc Hm.
  destruct (build_document V item) as [doc|e] eqn:E.
  - exists doc. split; [reflexivity|]. apply Hgen. reflexivity.
  - exfalso. revert E.
    unfold build_document, Document_new, has_key, field.
    unfold has_key, field in Hd. rewrite Hd.
    rewrite Hlat, Hlon. cbn [andb bind]. unfold setCentroid.
    rewrite Hc. cbn [bind]. unfold setMeta. rewrite !Hm.
    destruct (lookup "nodes" item), (lookup "tags" item);
      cbn [bind]; discriminate.
Qed.

Lemma centroid_prefers_lat_lon_witness :
  exists doc,
    build_document strict record_at_origin = Ok doc /\
    getCentroid doc = VObject [("lat", VNumber 0); ("lon", VNumber 0)].
Proof.
  exact (proj2 (centroid_prefers_lat_lon strict record_at_origin
                  (VNumber 0) (VNumber 0) eq_refl eq_refl)
           eq_refl eq_refl (fun _ _ => eq_refl)).
Defined.

(** ** The examples of the specification *)

Example unnamed_house :
  exists r,
    transform permissive house empty_stream = Ok (mkStream 0 [r] []) /\
    getType r = VString "address" /\
    getId r = VString "osm-venue-address-7" /\
    getName r "default" = VString "12 Main St".
Proof.
  eexists. split; [vm_compute; reflexivity|]. repeat split.
Qed.

Example named_cafe :
  exists r12 r14,
    transform strict cafe empty_stream
    = Ok (mkStream 0 [r12; r14; cafe] []) /\
    getName r12 "default" = VString "12 Main St" /\
    getName r14 "default" = VString "14 Main St" /\
    getId r12 = VString "osm-venue-poi-address-7" /\
    getId r14 = VString "osm-venue-poi-address-7-14".
Proof.
  eexists _, _. split; [vm_compute; reflexivity|]. repeat split.
Qed.

Example split_trim :
  map trim (split ";" " 12 ; 14a;;") = ["12"; "14a"; ""; ""].
Proof. reflexivity. Qed.

(** * Further properties of the address extractor *)

(** ** The state after the loop *)

Lemma forEach_ordinal (V : Validators) (doc : Document) (type : string)
      (streetnumbers : list string) :
  forall (i : nat) (st : Stream) (record : option Document),
    idOrdinal (fst (forEach V doc type i streetnumbers (st, record)))
    = idOrdinal st
      + (if truthy (getSourceId doc) then 0
         else Z.of_nat (List.length streetnumbers)).
Proof.
  induction streetnumbers as [|streetno rest IH]; intros i st record.
  - cbn [forEach fst List.length]. destruct (truthy _); cbn; lia.
  - cbn [forEach].
    destruct (streetnumber V doc type i streetno (st, record))
      as [st1 record1] eqn:E.
    rewrite IH. clear IH.
    assert (H1 : idOrdinal st1
                 = if truthy (getSourceId doc) then idOrdinal st
                   else idOrdinal st + 1).
    { unfold streetnumber in E.
      destruct (construct V doc type _ i streetno) as [r|e];
        [|destruct record as [r|]]; inversion E; reflexivity. }
    rewrite H1. cbn [List.length].
    destruct (truthy (getSourceId doc)); lia.
Qed.

(** The whole state after the transform function. *)
Lemma transform_state (V : Validators) (doc : Document) (st : Stream) :
  exists st',
    transform V doc st = Ok st' /\
    idOrdinal st' = idOrdinal st + ordinals_used doc /\
    pushed st'
    = (pushed st
         ++ (if address_check (address doc)
             then carried doc None
                    (attempts V doc (component_type doc) (idOrdinal st) 0
                       (components doc))
             else [])
         ++ (if isNamedPoi doc then [doc] else []))%list /\
    logged st'
    = (logged st
         ++ (if address_check (address doc)
             then flat_map (caught doc)
                    (attempts V doc (component_type doc) (idOrdinal st) 0
                       (components doc))
             else []))%list.
Proof.
  unfold transform, ordinals_used.
  rewrite hasValidAddress_document. cbn [bind].
  destruct (address_check (address doc)) eqn:Hv.
  - rewrite (streetnumbers_components doc Hv). cbn [bind].
    eexists. split; [reflexivity|].
    fold (component_type doc).
    assert (Hp := forEach_pushed V doc (component_type doc)
                    (components doc) 0 st None).
    assert (Hl := forEach_logged V doc (component_type doc)
                    (components doc) 0 st None).
    assert (Ho := forEach_ordinal V doc (component_type doc)
                    (components doc) 0 st None).
    unfold component_type in *. unfold isNamedPoi.
    destruct (truthy (getName doc "default"));
      cbn [pushed push logged idOrdinal andb]; rewrite Hp, Hl, Ho;
      rewrite <- ?app_assoc, ?app_nil_r;
      (split; [destruct (truthy (getSourceId doc)); reflexivity|]);
      split; reflexivity.
  - cbn [bind andb]. eexists. split; [reflexivity|].
    destruct (isNamedPoi doc); cbn [pushed push logged idOrdinal app];
      rewrite ?app_nil_r; repeat split; lia.
Qed.

(** ** The stream never throws *)

(** X1.  Whatever the address of a document holds, the transform function
    returns; over any sequence of documents the stream returns, and what
    was pushed and logged before stays in front of what it adds. *)
Theorem run_keeps_output (V : Validators) (docs : list Document) :
  forall st,
    exists st' out log,
      run V docs st = Ok st' /\
      pushed st' = (pushed st ++ out)%list /\
      logged st' = (logged st ++ log)%list /\
      idOrdinal st <= idOrdinal st'.
Proof.
  induction docs as [|doc rest IH]; intros st; cbn [run].
  - exists st, [], []. rewrite !app_nil_r. repeat split. lia.
  - destruct (transform_state V doc st) as (st1 & Ht & Ho & Hp & Hl).
    rewrite Ht. cbn [bind].
    destruct (IH st1) as (st' & out & log & Hr & Hp' & Hl' & Ho').
    exists st'. eexists. eexists. split; [exact Hr|].
    rewrite Hp', Hl', Hp, Hl, <- !app_assoc.
    split; [reflexivity|]. split; [reflexivity|].
    rewrite Ho in Ho'. unfold ordinals_used in Ho'.
    destruct (_ && _) in Ho'; lia.
Qed.

(** ** The counter *)

(** X2.  The transform function advances [idOrdinal] by exactly one for each
    house-number component of a document that has a valid address and no
    truthy source id, whether the component is built or not, and leaves
    it alone for every other document. *)
Theorem transform_counter (V : Validators) (doc : Document) (st : Stream) :
  exists valid st',
    hasValidAddress (as_object doc) = Ok valid /\
    transform V doc st = Ok st' /\
    idOrdinal st'
    = idOrdinal st
      + (if valid && negb (truthy (getSourceId doc))
         then Z.of_nat (List.length (map trim (split ";" (house_number doc))))
         else 0).
Proof.
  destruct (transform_state V doc st) as (st' & Ht & Ho & _).
  exists (address_check (address doc)), st'.
  split; [apply hasValidAddress_document|].
  split; [exact Ht|]. exact Ho.
Qed.

(** X3.  Over a sequence of documents the counter ends at its start plus the
    number of components of the documents with a valid address and no
    truthy source id. *)
Theorem run_counter (V : Validators) (docs : list Document) :
  forall st,
    exists st',
      run V docs st = Ok st' /\
      idOrdinal st'
      = idOrdinal st + fold_right Z.add 0 (map ordinals_used docs).
Proof.
  induction docs as [|doc rest IH]; intros st; cbn [run map fold_right].
  - exists st. split; [reflexivity|lia].
  - destruct (transform_state V doc st) as (st1 & Ht & Ho & _).
    rewrite Ht. cbn [bind].
    destruct (IH st1) as (st' & Hr & Ho').
    exists st'. split; [exact Hr|]. rewrite Ho', Ho. lia.
Qed.

(** ** The log *)

Lemma caught_length (doc : Document) (outcomes : list (result Document)) :
  List.length (flat_map (caught doc) outcomes)
  = (3 * failures outcomes)%nat.
Proof.
  unfold failures.
  induction outcomes as [|[r|e] rest IH]; cbn [flat_map caught filter
    succeeded negb app List.length]; lia.
Qed.

(** X4.  The transform function logs for the components whose construction
    throws and for nothing else: three entries for each, the message, the
    stack and the serialized source document, in component order. *)
Theorem transform_log (V : Validators) (doc : Document) (st : Stream) :
  exists valid st' outcomes,
    hasValidAddress (as_object doc) = Ok valid /\
    transform V doc st = Ok st' /\
    outcomes
    = (if valid
       then attempts V doc (component_type doc) (idOrdinal st) 0
              (components doc)
       else []) /\
    logged st'
    = (logged st
         ++ flat_map
              (fun a =>
                 match a with
                 | Ok _ => []
                 | Throw e =>
                     [LogMessage "address_extractor error";
                      LogStack e; LogJSON doc]
                 end) outcomes)%list /\
    List.length (logged st')
    = (List.length (logged st) + 3 * failures outcomes)%nat.
Proof.
  destruct (transform_state V doc st) as (st' & Ht & _ & _ & Hl).
  exists (address_check (address doc)), st'. eexists.
  split; [apply hasValidAddress_document|].
  split; [exact Ht|]. split; [reflexivity|].
  assert (Hl' : logged st'
                = (logged st
                     ++ flat_map (caught doc)
                          (if address_check (address doc)
                           then attempts V doc (component_type doc)
                                  (idOrdinal st) 0 (components doc)
                           else []))%list).
  { rewrite Hl. destruct (address_check (address doc)); reflexivity. }
  split; [exact Hl'|].
  rewrite Hl', length_app, caught_length. reflexivity.
Qed.

(** ** What a derived document carries *)

Lemma construct_built (V : Validators) (doc : Document) (type : string)
      (base : value) (i : nat) (streetno : string) (r : Document) :
  construct V doc type base i streetno = Ok r ->
  exists street,
    get (address doc) "street" = Ok street /\
    r = setProperties V
          (before_setProperties doc type base i streetno street) doc.
Proof.
  unfold construct, Document_new.
  destruct (valid_document V _ _ _); [|discriminate].
  cbn [bind]. rewrite as_object_address. cbn [bind].
  destruct (get (address doc) "street") as [street|e]; [|discriminate].
  cbn [bind]. unfold setName. cbn [getSource getType getId getSourceId
    name getCentroid address getAlpha3 admin _meta].
  destruct (valid_name V _ _); [|discriminate].
  cbn [bind]. unfold setCentroid. cbn [getSource getType getId getSourceId
    name getCentroid address getAlpha3 admin _meta].
  destruct (valid_centroid V _); [|discriminate].
  cbn [bind]. unfold setSourceId. cbn [getSource getType getId getSourceId
    name getCentroid address getAlpha3 admin _meta].
  destruct (valid_sourceId V _); [|discriminate].
  cbn [bind]. intros H. inversion H as [Hr]. clear H.
  exists street. split; reflexivity.
Qed.

(** X5.  Every address document pushed has the provenance "osm", the centroid
    and the source id of the document it was derived from, and one name
    only, the default one: the name of a POI is not carried over. *)
Theorem derived_copies_source (V : Validators) (doc : Document)
        (st : Stream) :
  exists derived st',
    transform V doc st = Ok st' /\
    pushed st'
    = (pushed st ++ derived ++ (if isNamedPoi doc then [doc] else []))%list /\
    Forall (fun r =>
              getSource r = VString "osm" /\
              getCentroid r = getCentroid doc /\
              getSourceId r = getSourceId doc /\
              exists c,
                In c (components doc) /\
                name r
                = [("default",
                    VString (c ++ " " ++ street_name doc)%string)])
           derived.
Proof.
  destruct (transform_derived V doc st) as (derived & st' & Ht & Hp & Hf & Hd).
  exists derived, st'. split; [exact Ht|]. split; [exact Hp|].
  destruct (address_check (address doc)) eqn:Hv;
    [|subst derived; constructor].
  destruct (address_check_fields doc Hv) as (_ & Hstreet & _ & _).
  eapply Forall_impl; [|exact Hf].
  intros x (base & i & streetno & r & Hn & Hc & ->).
  apply construct_built in Hc. destruct Hc as (street & Hs & ->).
  rewrite Hstreet in Hs. inversion Hs; subst street. clear Hs.
  match goal with
  | |- context [setProperties V ?r0 doc] =>
      destruct (setProperties_identity V r0 doc)
        as (Hso & _ & _ & Hsi & Hna & Hce & _)
  end.
  cbn [with_meta set_meta getSource getCentroid getSourceId name].
  rewrite Hso, Hce, Hsi, Hna.
  repeat split.
  exists streetno. split; [eapply nth_error_In; exact Hn|reflexivity].
Qed.

(** ** Metadata *)

Lemma lookup_assign_same (k : string) (v : value) (ps : props) :
  lookup k (assign k v ps) = Some v.
Proof.
  induction ps as [|[k' v'] r IH]; cbn [assign lookup].
  - rewrite String.eqb_refl. reflexivity.
  - destruct (String.eqb k k') eqn:E; cbn [lookup]; rewrite ?E.
    + rewrite String.eqb_refl. reflexivity.
    + exact IH.
Qed.

Lemma lookup_assign_other (k k' : string) (v : value) (ps : props) :
  String.eqb k k' = false ->
  lookup k (assign k' v ps) = lookup k ps.
Proof.
  intros Hk. induction ps as [|[k2 v2] r IH]; cbn [assign lookup].
  - rewrite Hk. reflexivity.
  - destruct (String.eqb k' k2) eqn:E; cbn [lookup].
    + apply String.eqb_eq in E. subst k2. rewrite Hk. reflexivity.
    + destruct (String.eqb k k2); [reflexivity|exact IH].
Qed.

Lemma extend_unfold (a b : props) :
  extend a b = extend_props b (extend_props a []).
Proof. reflexivity. Qed.

(** X6.  The metadata of every address document pushed holds the document's
    own id and type, whatever the metadata of the source holds under
    these two names. *)
Theorem derived_meta_identity (V : Validators) (doc : Document)
        (st : Stream) :
  exists derived st',
    transform V doc st = Ok st' /\
    pushed st'
    = (pushed st ++ derived ++ (if isNamedPoi doc then [doc] else []))%list /\
    Forall (fun r =>
              getMeta r "id" = getId r /\ getMeta r "type" = getType r)
           derived.
Proof.
  destruct (transform_derived V doc st) as (derived & st' & Ht & Hp & Hf & _).
  exists derived, st'. split; [exact Ht|]. split; [exact Hp|].
  eapply Forall_impl; [|exact Hf].
  intros x (base & i & streetno & r & _ & Hc & ->).
  apply construct_Ok in Hc.
  destruct Hc as (_ & _ & _ & Hty & Hid & _).
  unfold getMeta, with_meta.
  cbn [set_meta _meta getId getType]. rewrite extend_unfold, Hty, Hid.
  cbn [extend_props is_undefined extend_value].
  rewrite lookup_assign_other by reflexivity.
  rewrite !lookup_assign_same. split; reflexivity.
Qed.










(** ** setProperties *)

Section Copies.

Variable V : Validators.
Variable doc : Document.

Lemma copy_address_step (record : Document) (prop : string) (ps : props) :
  address record = VObject ps ->
  address (copy_address V doc record prop)
  = VObject (match accepted_address V doc prop with
             | Some v => assign prop v ps
             | None => ps
             end) /\
  getAlpha3 (copy_address V doc record prop) = getAlpha3 record /\
  admin (copy_address V doc record prop) = admin record.
Proof.
  intros Ha. unfold copy_address, accepted_address, ignoring, setAddress.
  destruct (getAddress doc prop) as [v|e]; cbn [bind];
    [|repeat split; exact Ha].
  destruct (valid_address V prop v); [|repeat split; exact Ha].
  rewrite Ha. repeat split.
Qed.

Lemma copy_address_fold (l : list string) :
  forall record ps,
    address record = VObject ps ->
    exists ps',
      address (fold_left (copy_address V doc) l record) = VObject ps' /\
      getAlpha3 (fold_left (copy_address V doc) l record)
      = getAlpha3 record /\
      admin (fold_left (copy_address V doc) l record) = admin record /\
      forall prop,
        lookup prop ps'
        = match (if member prop l then accepted_address V doc prop
                 else None) with
          | Some v => Some v
          | None => lookup prop ps
          end.
Proof.
  induction l as [|a l IH]; intros record ps Ha; cbn [fold_left].
  - exists ps. repeat split; assumption.
  - destruct (copy_address_step record a ps Ha) as (Ha' & Hal & Had).
    destruct (IH _ _ Ha') as (ps' & Hps' & Hal' & Had' & Hl).
    exists ps'. split; [exact Hps'|].
    split; [congruence|]. split; [congruence|].
    intros prop. rewrite Hl. unfold member. cbn [existsb].
    fold (member prop l).
    destruct (String.eqb prop a) eqn:E.
    + apply String.eqb_eq in E. subst a. cbn [orb].
      destruct (accepted_address V doc prop) as [v|].
      * destruct (member prop l); [reflexivity|].
        apply lookup_assign_same.
      * destruct (member prop l); reflexivity.
    + cbn [orb].
      destruct (member prop l);
        [destruct (accepted_address V doc prop); [reflexivity|]|];
        (destruct (accepted_address V doc a);
           [apply lookup_assign_other; exact E|reflexivity]).
Qed.

Lemma copy_admin_step (record : Document) (level : string) :
  address (copy_admin V doc record level) = address record /\
  getAlpha3 (copy_admin V doc record level) = getAlpha3 record /\
  admin (copy_admin V doc record level)
  = (if valid_admin V level (getAdmin doc level)
     then assign level (getAdmin doc level) (admin record)
     else admin record).
Proof.
  unfold copy_admin, ignoring, setAdmin.
  destruct (valid_admin V level (getAdmin doc level)); repeat split.
Qed.

Lemma copy_admin_fold (l : list string) :
  forall record,
    address (fold_left (copy_admin V doc) l record) = address record /\
    getAlpha3 (fold_left (copy_admin V doc) l record) = getAlpha3 record /\
    forall level,
      lookup level (admin (fold_left (copy_admin V doc) l record))
      = if member level l && valid_admin V level (getAdmin doc level)
        then Some (getAdmin doc level)
        else lookup level (admin record).
Proof.
  induction l as [|a l IH]; intros record; cbn [fold_left].
  - repeat split.
  - destruct (copy_admin_step record a) as (Ha & Hal & Had).
    destruct (IH (copy_admin V doc record a)) as (Ha' & Hal' & Hl).
    split; [congruence|]. split; [congruence|].
    intros level. rewrite Hl, Had. unfold member. cbn [existsb].
    fold (member level l).
    destruct (String.eqb level a) eqn:E.
    + apply String.eqb_eq in E. subst a. cbn [orb andb].
      destruct (valid_admin V level (getAdmin doc level)).
      * rewrite andb_true_r.
        destruct (member level l); [reflexivity|].
        apply lookup_assign_same.
      * rewrite andb_false_r. reflexivity.
    + cbn [orb].
      destruct (member level l && valid_admin V level (getAdmin doc level));
        [reflexivity|].
      destruct (valid_admin V a (getAdmin doc a));
        [apply lookup_assign_other; exact E|reflexivity].
Qed.

Lemma setProperties_unfold (record : Document) :
  setProperties V record doc
  = fold_left (copy_admin V doc) adminProps
      (let r1 := fold_left (copy_address V doc) addrProps record in
       ignoring r1 (setAlpha3 V r1 (getAlpha3 doc))).
Proof. reflexivity. Qed.

End Copies.

(** The outcome of [setProperties], field by field. *)
Lemma setProperties_independent_aux
        (V : Validators) (record doc : Document) (ps : props) :
  address record = VObject ps ->
  (forall prop,
      In prop addrProps ->
      getAddress (setProperties V record doc) prop
      = match accepted_address V doc prop with
        | Some v => Ok v
        | None => getAddress record prop
        end) /\
  getAlpha3 (setProperties V record doc)
  = (if valid_alpha3 V (getAlpha3 doc) then getAlpha3 doc
     else getAlpha3 record) /\
  (forall level,
      In level adminProps ->
      getAdmin (setProperties V record doc) level
      = if valid_admin V level (getAdmin doc level)
        then getAdmin doc level
        else getAdmin record level).
Proof.
  intros Ha. rewrite setProperties_unfold. cbv zeta.
  destruct (copy_address_fold V doc addrProps record ps Ha)
    as (ps' & Hps' & Hal & Had & Hl).
  set (r1 := fold_left (copy_address V doc) addrProps record) in *.
  set (r2 := ignoring r1 (setAlpha3 V r1 (getAlpha3 doc))).
  assert (H2 : address r2 = address r1 /\ admin r2 = admin r1 /\
               getAlpha3 r2
               = if valid_alpha3 V (getAlpha3 doc) then getAlpha3 doc
                 else getAlpha3 r1).
  { unfold r2, ignoring, setAlpha3.
    destruct (valid_alpha3 V (getAlpha3 doc)); repeat split. }
  destruct H2 as (H2a & H2d & H2l).
  destruct (copy_admin_fold V doc adminProps r2) as (H3a & H3l & H3d).
  split; [|split].
  - intros prop Hin. unfold getAddress.
    rewrite H3a, H2a, Hps', Ha, !get_object, Hl.
    assert (Hm : member prop addrProps = true).
    { apply existsb_exists. exists prop. split; [exact Hin|].
      apply String.eqb_refl. }
    rewrite Hm. destruct (accepted_address V doc prop); reflexivity.
  - rewrite H3l, H2l, Hal. reflexivity.
  - intros level Hin. unfold getAdmin. rewrite H3d, H2d, Had.
    assert (Hm : member level adminProps = true).
    { apply existsb_exists. exists level. split; [exact Hin|].
      apply String.eqb_refl. }
    rewrite Hm. cbn [andb].
    destruct (valid_admin V level _); reflexivity.
Qed.

(** X8.  Each field copy of [setProperties] stands alone.  On a record whose
    address is an object: each of the four address fields ends as the
    value the source document holds when the document type accepts it,
    and as it was on the record otherwise; likewise the country code and
    each of the seven administrative fields.  No rejected field keeps
    another one from being copied. *)
Theorem setProperties_independent
        (V : Validators) (record doc : Document) (ps : props) :
  address record = VObject ps ->
  (forall prop,
      In prop addrProps ->
      getAddress (setProperties V record doc) prop
      = match accepted_address V doc prop with
        | Some v => Ok v
        | None => getAddress record prop
        end) /\
  getAlpha3 (setProperties V record doc)
  = (if valid_alpha3 V (getAlpha3 doc) then getAlpha3 doc
     else getAlpha3 record) /\
  (forall level,
      In level adminProps ->
      getAdmin (setProperties V record doc) level
      = if valid_admin V level (getAdmin doc level)
        then getAdmin doc level
        else getAdmin record level).
Proof.
  intros Ha. apply setProperties_independent_aux with (ps := ps).
  exact Ha.
Qed.

Lemma setProperties_independent_witness :
  (forall prop,
      In prop addrProps ->
      getAddress
        (setProperties strict
           (before_setProperties tagged "poi-address" (VString "9") 0 "3"
              (VString "High St")) tagged) prop
      = match accepted_address strict tagged prop with
        | Some v => Ok v
        | None => Ok VUndefined
        end) /\
  getAlpha3
    (setProperties strict
       (before_setProperties tagged "poi-address" (VString "9") 0 "3"
          (VString "High St")) tagged)
  = VString "GBR" /\
  (forall level,
      In level adminProps ->
      getAdmin
        (setProperties strict
           (before_setProperties tagged "poi-address" (VString "9") 0 "3"
              (VString "High St")) tagged) level
      = if nonblank (getAdmin tagged level)
        then getAdmin tagged level
        else VUndefined).
Proof.
  exact (setProperties_independent strict
           (before_setProperties tagged "poi-address" (VString "9") 0 "3"
              (VString "High St")) tagged [] eq_refl).
Defined.

(** The address fields of the documents of the loop. *)
Lemma derived_fields_aux (V : Validators) (doc : Document) (st : Stream) :
  exists derived st',
    transform V doc st = Ok st' /\
    pushed st'
    = (pushed st ++ derived ++ (if isNamedPoi doc then [doc] else []))%list /\
    Forall (fun r =>
              forall prop,
                In prop addrProps ->
                getAddress r prop
                = Ok (match accepted_address V doc prop with
                      | Some v => v
                      | None => VUndefined
                      end))
           derived.
Proof.
  destruct (transform_derived V doc st) as (derived & st' & Ht & Hp & Hf & _).
  exists derived, st'. split; [exact Ht|]. split; [exact Hp|].
  eapply Forall_impl; [|exact Hf].
  intros x (base & i & streetno & r & _ & Hc & ->).
  apply construct_built in Hc. destruct Hc as (street & _ & ->).
  destruct (setProperties_independent_aux V
              (before_setProperties doc (component_type doc) base i streetno
                 street) doc [] eq_refl) as (Ha & _).
  intros prop Hin.
  change (getAddress (with_meta doc ?r) prop) with (getAddress r prop).
  rewrite (Ha prop Hin).
  destruct (accepted_address V doc prop); reflexivity.
Qed.

(** X9.  Every address document pushed holds, for each of the four address
    fields, the country code and each of the seven administrative fields,
    the value of its source when the document type accepts that value,
    and nothing ([undefined]) otherwise, field by field. *)
Theorem derived_fields (V : Validators) (doc : Document) (st : Stream) :
  exists derived st',
    transform V doc st = Ok st' /\
    pushed st'
    = (pushed st ++ derived ++ (if isNamedPoi doc then [doc] else []))%list /\
    Forall (fun r =>
              (forall prop,
                  In prop addrProps ->
                  getAddress r prop
                  = Ok (match accepted_address V doc prop with
                        | Some v => v
                        | None => VUndefined
                        end)) /\
              getAlpha3 r
              = (if valid_alpha3 V (getAlpha3 doc) then getAlpha3 doc
                 else VUndefined) /\
              (forall level,
                  In level adminProps ->
                  getAdmin r level
                  = if valid_admin V level (getAdmin doc level)
                    then getAdmin doc level
                    else VUndefined))
           derived.
Proof.
  destruct (transform_derived V doc st) as (derived & st' & Ht & Hp & Hf & _).
  exists derived, st'. split; [exact Ht|]. split; [exact Hp|].
  eapply Forall_impl; [|exact Hf].
  intros x (base & i & streetno & r & _ & Hc & ->).
  apply construct_built in Hc. destruct Hc as (street & _ & ->).
  destruct (setProperties_independent_aux V
              (before_setProperties doc (component_type doc) base i streetno
                 street) doc [] eq_refl) as (Ha & Hl & Hd).
  split; [|split].
  - intros prop Hin.
    change (getAddress (with_meta doc ?r) prop) with (getAddress r prop).
    rewrite (Ha prop Hin).
    destruct (accepted_address V doc prop); reflexivity.
  - exact Hl.
  - exact Hd.
Qed.

(** X10.  The house number on a derived document is not the component it was
    derived for: when the document type accepts them, every address
    document pushed has as [address.number] the whole house-number string
    of its source, separators included, and as [address.street] the street
    of its source. *)
Theorem derived_number_unsplit (V : Validators) (doc : Document)
        (st : Stream) :
  hasValidAddress (as_object doc) = Ok true ->
  valid_address V "number" (VString (house_number doc)) = true ->
  valid_address V "street" (VString (street_name doc)) = true ->
  exists derived st',
    transform V doc st = Ok st' /\
    pushed st'
    = (pushed st ++ derived ++ (if isNamedPoi doc then [doc] else []))%list /\
    Forall (fun r =>
              getAddress r "number" = Ok (VString (house_number doc)) /\
              getAddress r "street" = Ok (VString (street_name doc)))
           derived.
Proof.
  rewrite hasValidAddress_document. intros Hv Hn Hs.
  assert (Hv' : address_check (address doc) = true) by congruence.
  destruct (address_check_fields doc Hv') as (Hnum & Hstr & _ & _).
  destruct (derived_fields_aux V doc st) as (derived & st' & Ht & Hp & Hf).
  exists derived, st'. split; [exact Ht|]. split; [exact Hp|].
  eapply Forall_impl; [|exact Hf].
  intros r Ha. split.
  - rewrite (Ha "number") by (cbn; tauto).
    unfold accepted_address, getAddress. rewrite Hnum, Hn. reflexivity.
  - rewrite (Ha "street") by (cbn; tauto).
    unfold accepted_address, getAddress. rewrite Hstr, Hs. reflexivity.
Qed.

Lemma derived_number_unsplit_witness :
  exists derived st',
    transform strict cafe empty_stream = Ok st' /\
    pushed st' = ([] ++ derived ++ [cafe])%list /\
    Forall (fun r =>
              getAddress r "number" = Ok (VString "12;14") /\
              getAddress r "street" = Ok (VString "Main St"))
           derived.
Proof.
  exact (derived_number_unsplit strict cafe empty_stream
           eq_refl eq_refl eq_refl).
Defined.

(** ** Splitting the house number *)

Lemma split_cons (sep : ascii) (s : string) :
  exists h t, split sep s = h :: t.
Proof.
  destruct s as [|c r]; cbn [split]; [eauto|].
  destruct (Ascii.eqb c sep); [eauto|].
  destruct (split sep r); eauto.
Qed.

Lemma split_length (sep : ascii) (s : string) :
  List.length (split sep s) = S (count_char sep s).
Proof.
  induction s as [|c r IH]; cbn [split count_char]; [reflexivity|].
  destruct (Ascii.eqb c sep); cbn [List.length].
  - rewrite IH. reflexivity.
  - destruct (split_cons sep r) as (h & t & E). rewrite E in *.
    cbn [List.length] in *. exact IH.
Qed.

Lemma split_parts (sep : ascii) (s : string) :
  Forall (fun p => count_char sep p = 0%nat) (split sep s).
Proof.
  induction s as [|c r IH]; cbn [split].
  - constructor; [reflexivity|constructor].
  - destruct (Ascii.eqb c sep) eqn:E.
    + constructor; [reflexivity|exact IH].
    + destruct (split_cons sep r) as (h & t & Er). rewrite Er in *.
      inversion IH as [|? ? Hh Ht]; subst.
      constructor; [|exact Ht].
      cbn [count_char]. rewrite E, Hh. reflexivity.
Qed.

(** Joining the parts with the separator gives the string back. *)
Lemma split_join (sep : ascii) (s : string) :
  String.concat (String sep EmptyString) (split sep s) = s.
Proof.
  induction s as [|c r IH]; cbn [split]; [reflexivity|].
  destruct (split_cons sep r) as (h & t & Er). rewrite Er in *.
  destruct (Ascii.eqb c sep) eqn:E.
  - apply Ascii.eqb_eq in E. subst c.
    change (String.concat (String sep "") ("" :: h :: t))
      with (String sep (String.concat (String sep "") (h :: t))).
    rewrite IH. reflexivity.
  - destruct t as [|h' t].
    + cbn [String.concat] in *. rewrite IH. reflexivity.
    + change (String.concat (String sep "") (String c h :: h' :: t))
        with (String c (String.concat (String sep "") (h :: h' :: t))).
      rewrite IH. reflexivity.
Qed.

Lemma trim_start_count (c : ascii) (s : string) :
  (count_char c (trim_start s) <= count_char c s)%nat.
Proof.
  induction s as [|a r IH]; cbn [trim_start count_char]; [lia|].
  destruct (is_space a); cbn [count_char]; lia.
Qed.

Lemma trim_end_count (c : ascii) (s : string) :
  (count_char c (trim_end s) <= count_char c s)%nat.
Proof.
  induction s as [|a r IH]; cbn [trim_end count_char]; [lia|].
  destruct (is_space a && String.eqb (trim_end r) ""); cbn [count_char]; lia.
Qed.

Lemma trim_start_first (s : string) : first_space (trim_start s) = false.
Proof.
  induction s as [|a r IH]; cbn [trim_start]; [reflexivity|].
  destruct (is_space a) eqn:E; [exact IH|]. cbn [first_space]. exact E.
Qed.

Lemma trim_end_first (s : string) :
  first_space s = false -> first_space (trim_end s) = false.
Proof.
  destruct s as [|a r]; cbn [first_space trim_end]; [reflexivity|].
  intros E. rewrite E. cbn [andb first_space]. exact E.
Qed.

Lemma trim_end_last (s : string) : last_space (trim_end s) = false.
Proof.
  induction s as [|a r IH]; cbn [trim_end]; [reflexivity|].
  destruct (is_space a) eqn:Ea; cbn [andb].
  - destruct (trim_end r) as [|b t] eqn:Er; cbn [String.eqb].
    + reflexivity.
    + cbn [last_space]. exact IH.
  - destruct (trim_end r) as [|b t] eqn:Er.
    + cbn [last_space]. exact Ea.
    + cbn [last_space]. exact IH.
Qed.

(** X11.  The house-number components of a document with a valid address: the
    house number is cut at its semicolons and nowhere else, so that the
    parts, joined by semicolons, give the house number back, and there is
    one component more than there are semicolons (at least one); each
    component is a part trimmed, holds no semicolon and neither begins nor
    ends with white space. *)
Theorem streetnumbers_shape (doc : Document) :
  hasValidAddress (as_object doc) = Ok true ->
  exists parts,
    streetnumbers doc = Ok (map trim parts) /\
    String.concat ";" parts = house_number doc /\
    List.length (map trim parts) = S (count_char ";" (house_number doc)) /\
    Forall (fun c =>
              has_char ";" c = false /\
              first_space c = false /\ last_space c = false)
           (map trim parts).
Proof.
  rewrite hasValidAddress_document. intros Hv.
  assert (Hv' : address_check (address doc) = true) by congruence.
  exists (split ";" (house_number doc)).
  split; [apply streetnumbers_components; exact Hv'|].
  split; [apply split_join|].
  split; [rewrite length_map; apply split_length|].
  apply Forall_map.
  eapply Forall_impl; [|apply split_parts].
  intros p Hp. cbv beta in Hp. split; [|split].
  - unfold has_char, trim.
    assert (H1 := trim_end_count ";" (trim_start p)).
    assert (H2 := trim_start_count ";" p).
    replace (count_char ";" (trim_end (trim_start p))) with 0%nat by lia.
    reflexivity.
  - unfold trim. apply trim_end_first, trim_start_first.
  - unfold trim. apply trim_end_last.
Qed.

Lemma streetnumbers_shape_witness :
  exists parts,
    streetnumbers cafe = Ok (map trim parts) /\
    String.concat ";" parts = "12;14" /\
    List.length (map trim parts) = 2%nat /\
    Forall (fun c =>
              has_char ";" c = false /\
              first_space c = false /\ last_space c = false)
           (map trim parts).
Proof.
  exact (streetnumbers_shape cafe eq_refl).
Defined.

(** ** Identifiers *)

Lemma append_inv_head (p a b : string) :
  (p ++ a = p ++ b)%string -> a = b.
Proof.
  induction p as [|c p IH]; cbn [append]; intros H; [exact H|].
  inversion H. auto.
Qed.

Lemma append_length (a b : string) :
  String.length (a ++ b) = (String.length a + String.length b)%nat.
Proof.
  induction a as [|c a IH]; cbn [append String.length]; [reflexivity|].
  rewrite IH. reflexivity.
Qed.

Lemma append_empty_r (a : string) : (a ++ "")%string = a.
Proof.
  induction a as [|c a IH]; cbn [append]; [reflexivity|].
  rewrite IH. reflexivity.
Qed.

(** The identifier, written out. *)
Lemma join_newid (doc : Document) (type : string) (base : value)
      (i : nat) (streetno : string) :
  join "-" (newid doc type base i streetno)
  = ("osm" ++ "-" ++ join_elem (getType doc) ++ "-" ++ type ++ "-"
       ++ join_elem base
       ++ (if (0 <? i)%nat then "-" ++ streetno else ""))%string.
Proof.
  unfold join, newid. destruct (0 <? i)%nat; cbn [app map String.concat].
  - reflexivity.
  - rewrite append_empty_r. reflexivity.
Qed.

Lemma string_of_uint_digits (d : Decimal.uint) :
  all_digits (NilEmpty.string_of_uint d) = true.
Proof.
  induction d; cbn [NilEmpty.string_of_uint all_digits]; auto.
Qed.

Lemma decimal_digits (n : Z) : 0 <= n -> all_digits (decimal n) = true.
Proof.
  intros Hn. unfold decimal.
  destruct n as [|p|p]; [reflexivity| |lia].
  unfold Z.to_int, NilZero.string_of_int, NilZero.string_of_uint.
  destruct (Pos.to_uint p) eqn:E; try reflexivity;
    rewrite <- E; apply string_of_uint_digits.
Qed.

Lemma decimal_inj (n m : Z) : decimal n = decimal m -> n = m.
Proof.
  unfold decimal. intros H.
  apply DecimalZ.to_int_inj.
  assert (Hi : forall z,
             NilZero.int_of_string (NilZero.string_of_int (Z.to_int z))
             = Some (Z.to_int z)).
  { intros z. apply NilZero.isi.
    - destruct z as [|p|p]; cbn; try discriminate.
      intros E. inversion E as [E'].
      revert E'. apply DecimalPos.Unsigned.to_uint_nonnil.
    - destruct z as [|p|p]; cbn; try discriminate.
      intros E. inversion E as [E'].
      revert E'. apply DecimalPos.Unsigned.to_uint_nonnil. }
  assert (H1 := Hi n). rewrite H in H1. rewrite Hi in H1.
  inversion H1. reflexivity.
Qed.

(** Two runs of digits, each followed by something that is not a digit,
    are equal when the whole strings are. *)
Lemma digits_prefix (d1 : string) :
  forall d2 t1 t2,
    all_digits d1 = true -> all_digits d2 = true ->
    stops t1 = true -> stops t2 = true ->
    (d1 ++ t1 = d2 ++ t2)%string -> d1 = d2.
Proof.
  induction d1 as [|c r IH]; intros d2 t1 t2 H1 H2 S1 S2 E.
  - destruct d2 as [|c' r']; [reflexivity|].
    cbn [append] in E. subst t1. cbn [stops all_digits] in *.
    apply andb_prop in H2. destruct H2 as [Hc _].
    rewrite Hc in S1. discriminate.
  - destruct d2 as [|c' r'].
    + cbn [append] in E. subst t2. cbn [stops all_digits] in *.
      apply andb_prop in H1. destruct H1 as [Hc _].
      rewrite Hc in S2. discriminate.
    + cbn [append] in E. inversion E; subst.
      cbn [all_digits] in *.
      apply andb_prop in H1. apply andb_prop in H2.
      f_equal. apply (IH r' t1 t2); tauto.
Qed.

(** Identifiers built from different values of the counter. *)
Lemma newid_counter_apart
        (doc1 doc2 : Document) (type : string) (n1 n2 : Z)
        (i1 i2 : nat) (streetno1 streetno2 : string) :
  getType doc1 = getType doc2 ->
  0 <= n1 -> 0 <= n2 -> n1 <> n2 ->
  join "-" (newid doc1 type (VNumber n1) i1 streetno1)
  <> join "-" (newid doc2 type (VNumber n2) i2 streetno2).
Proof.
  intros HT H1 H2 Hne E. rewrite !join_newid, HT in E.
  repeat (apply append_inv_head in E).
  cbn [join_elem to_string] in E.
  apply Hne, decimal_inj.
  eapply digits_prefix; [| | | |exact E];
    try (apply decimal_digits; assumption).
  - destruct (0 <? i1)%nat; reflexivity.
  - destruct (0 <? i2)%nat; reflexivity.
Qed.

(** X12.  The counter keeps identifiers apart: for documents of the same type
    and the same value of [type], two identifiers built from different
    values of the counter differ, whatever the components. *)
Theorem newid_counter_distinct
        (doc1 doc2 : Document) (type : string) (n1 n2 : Z)
        (i1 i2 : nat) (streetno1 streetno2 : string) :
  getType doc1 = getType doc2 ->
  0 <= n1 -> 0 <= n2 -> n1 <> n2 ->
  join "-" (newid doc1 type (VNumber n1) i1 streetno1)
  <> join "-" (newid doc2 type (VNumber n2) i2 streetno2).
Proof.
  intros HT H1 H2 Hne. apply newid_counter_apart; assumption.
Qed.

Lemma newid_counter_distinct_witness :
  join "-" (newid terrace_without_id "address" (VNumber 1) 0 "1")
  <> join "-" (newid terrace_without_id "address" (VNumber 2) 1 "3").
Proof.
  apply (newid_counter_distinct terrace_without_id terrace_without_id
           "address" 1 2 0 1 "1" "3" eq_refl); lia.
Defined.

Lemma NoDup_map_injective {A B : Type} (f : A -> B) (l : list A) :
  (forall x y, f x = f y -> x = y) -> NoDup l -> NoDup (map f l).
Proof.
  intros Hf H. induction H as [|x l Hx _ IH]; cbn [map]; constructor.
  - intros Hin. apply in_map_iff in Hin. destruct Hin as (y & Hy & Hin).
    apply Hf in Hy. subst y. contradiction.
  - exact IH.
Qed.

(** The identifiers of the documents built, when all are built. *)
Lemma built_ids (V : Validators) (doc : Document) (type : string)
      (streetnumbers : list string) :
  forall ordinal i,
    forallb succeeded (attempts V doc type ordinal i streetnumbers) = true ->
    map getId (built (attempts V doc type ordinal i streetnumbers))
    = map VString (identifiers doc type ordinal i streetnumbers).
Proof.
  induction streetnumbers as [|c rest IH]; intros ordinal i H.
  - reflexivity.
  - cbn [attempts identifiers] in *. cbn [forallb] in H.
    apply andb_prop in H. destruct H as [Hc Hrest].
    destruct (construct V doc type _ i c) as [r|e] eqn:E; [|discriminate].
    cbn [built map]. rewrite (IH _ _ Hrest).
    apply construct_Ok in E. destruct E as (_ & _ & _ & _ & Hid & _).
    rewrite Hid. reflexivity.
Qed.

Lemma identifiers_counter (doc : Document) (type : string)
      (streetnumbers : list string) :
  truthy (getSourceId doc) = false ->
  forall ordinal i x,
    In x (identifiers doc type ordinal i streetnumbers) ->
    exists n j streetno,
      ordinal < n <= ordinal + Z.of_nat (List.length streetnumbers) /\
      x = join "-" (newid doc type (VNumber n) j streetno).
Proof.
  intros Hs.
  induction streetnumbers as [|c rest IH]; intros ordinal i x H.
  - destruct H.
  - cbn [identifiers] in H. rewrite Hs in H. destruct H as [H|H].
    + exists (ordinal + 1), i, c. split; [cbn [List.length]; lia|].
      symmetry. exact H.
    + apply IH in H. destruct H as (n & j & s & Hn & Hx).
      exists n, j, s. split; [cbn [List.length]; lia|exact Hx].
Qed.

Lemma identifiers_counter_NoDup (doc : Document) (type : string)
      (streetnumbers : list string) :
  truthy (getSourceId doc) = false ->
  forall ordinal i,
    0 <= ordinal ->
    NoDup (identifiers doc type ordinal i streetnumbers).
Proof.
  intros Hs.
  induction streetnumbers as [|c rest IH]; intros ordinal i Ho.
  - constructor.
  - cbn [identifiers]. rewrite Hs. constructor.
    + intros Hin. apply (identifiers_counter doc type rest Hs) in Hin.
      destruct Hin as (n & j & s & Hn & Hx).
      revert Hx. apply newid_counter_apart; [reflexivity|lia|lia|lia].
    + apply IH. lia.
Qed.

(** X13.  Without an upstream id the derived documents of one source document
    have pairwise distinct identifiers, repeated house-number components
    included, when every component is built and the counter is not
    negative (it starts at 0). *)
Theorem siblings_distinct_without_id (V : Validators) (doc : Document)
        (st : Stream) :
  truthy (getSourceId doc) = false ->
  0 <= idOrdinal st ->
  forallb succeeded
    (attempts V doc (component_type doc) (idOrdinal st) 0 (components doc))
  = true ->
  exists derived st',
    transform V doc st = Ok st' /\
    pushed st'
    = (pushed st ++ derived ++ (if isNamedPoi doc then [doc] else []))%list /\
    NoDup (map getId derived).
Proof.
  intros Hs Ho Hall.
  destruct (transform_derived V doc st) as (derived & st' & Ht & Hp & _ & Hd).
  exists derived, st'. split; [exact Ht|]. split; [exact Hp|].
  subst derived. destruct (address_check (address doc)); [|constructor].
  rewrite (carried_all_built doc _ Hall), map_map.
  change (map (fun x => getId (with_meta doc x)) ?l) with (map getId l).
  rewrite (built_ids _ _ _ _ _ _ Hall).
  apply NoDup_map_injective; [intros x y H; inversion H; reflexivity|].
  apply identifiers_counter_NoDup; assumption.
Qed.

Lemma siblings_distinct_without_id_witness :
  exists derived st',
    transform strict terrace_without_id empty_stream = Ok st' /\
    pushed st' = ([] ++ derived ++ [])%list /\
    NoDup (map getId derived).
Proof.
  apply (siblings_distinct_without_id strict terrace_without_id empty_stream).
  - reflexivity.
  - cbn. lia.
  - vm_compute. reflexivity.
Defined.

Lemma identifiers_upstream (doc : Document) (type : string)
      (streetnumbers : list string) :
  truthy (getSourceId doc) = true ->
  forall ordinal i,
    identifiers doc type ordinal (S i) streetnumbers
    = map (fun s => join "-" (newid doc type (getSourceId doc) 1 s))
        streetnumbers.
Proof.
  intros Hs.
  induction streetnumbers as [|c rest IH]; intros ordinal i.
  - reflexivity.
  - cbn [identifiers map]. rewrite Hs, IH. reflexivity.
Qed.

Lemma newid_suffix_inj (doc : Document) (type : string) (base : value)
      (s s' : string) :
  join "-" (newid doc type base 1 s) = join "-" (newid doc type base 1 s') ->
  s = s'.
Proof.
  rewrite !join_newid. intros E.
  repeat (apply append_inv_head in E). exact E.
Qed.

Lemma newid_first_apart (doc : Document) (type : string) (base : value)
      (s s' : string) :
  join "-" (newid doc type base 0 s) <> join "-" (newid doc type base 1 s').
Proof.
  rewrite !join_newid. intros E.
  repeat (apply append_inv_head in E). discriminate E.
Qed.

(** X14.  With an upstream id the identifier of a component after the first is
    that of the first with the component appended: when every component
    is built, the derived documents of one source document have pairwise
    distinct identifiers exactly when the components after the first are
    pairwise distinct. *)
Theorem siblings_distinct_with_id (V : Validators) (doc : Document)
        (st : Stream) :
  hasValidAddress (as_object doc) = Ok true ->
  truthy (getSourceId doc) = true ->
  forallb succeeded
    (attempts V doc (component_type doc) (idOrdinal st) 0 (components doc))
  = true ->
  exists derived st',
    transform V doc st = Ok st' /\
    pushed st'
    = (pushed st ++ derived ++ (if isNamedPoi doc then [doc] else []))%list /\
    (NoDup (map getId derived) <-> NoDup (tl (components doc))).
Proof.
  rewrite hasValidAddress_document. intros Hv Hs Hall.
  assert (Hv' : address_check (address doc) = true) by congruence.
  destruct (transform_derived V doc st) as (derived & st' & Ht & Hp & _ & Hd).
  exists derived, st'. split; [exact Ht|]. split; [exact Hp|].
  subst derived. rewrite Hv'.
  rewrite (carried_all_built doc _ Hall), map_map.
  change (map (fun x => getId (with_meta doc x)) ?l) with (map getId l).
  rewrite (built_ids _ _ _ _ _ _ Hall).
  unfold components in *.
  destruct (split_cons ";" (house_number doc)) as (h & t & E).
  rewrite E. cbn [map tl identifiers]. rewrite Hs.
  rewrite (identifiers_upstream doc _ _ Hs).
  set (f := fun s => join "-"
                       (newid doc (component_type doc) (getSourceId doc) 1 s)).
  split.
  - intros H. inversion H as [|? ? _ H']; subst.
    apply NoDup_map_inv in H'. apply NoDup_map_inv in H'. exact H'.
  - intros H. constructor.
    + intros Hin. apply in_map_iff in Hin.
      destruct Hin as (y & Hy & Hin).
      apply in_map_iff in Hin. destruct Hin as (s & Hs' & _).
      subst y.
      assert (Hy' : join "-" (newid doc (component_type doc)
                                (getSourceId doc) 0 (trim h)) = f s)
        by congruence.
      revert Hy'. apply newid_first_apart.
    + apply NoDup_map_injective;
        [intros x y Hxy; congruence|].
      apply NoDup_map_injective; [|exact H].
      intros x y Hxy. eapply newid_suffix_inj. exact Hxy.
Qed.

Lemma siblings_distinct_with_id_witness :
  exists derived st',
    transform strict terrace empty_stream = Ok st' /\
    pushed st' = ([] ++ derived ++ [])%list /\
    (NoDup (map getId derived) <-> NoDup ["3"; "3"]).
Proof.
  exact (siblings_distinct_with_id strict terrace empty_stream
           eq_refl eq_refl eq_refl).
Defined.

Lemma attempts_counter (V : Validators) (doc : Document) (type : string)
      (streetnumbers : list string) :
  truthy (getSourceId doc) = false ->
  forall ordinal i a,
    In a (attempts V doc type ordinal i streetnumbers) ->
    exists n j streetno,
      ordinal < n <= ordinal + Z.of_nat (List.length streetnumbers) /\
      a = construct V doc type (VNumber n) j streetno.
Proof.
  intros Hs.
  induction streetnumbers as [|c rest IH]; intros ordinal i a H.
  - destruct H.
  - cbn [attempts] in H. rewrite Hs in H. destruct H as [H|H].
    + exists (ordinal + 1), i, c. split; [cbn [List.length]; lia|].
      symmetry. exact H.
    + apply IH in H. destruct H as (n & j & s & Hn & Ha).
      exists n, j, s. split; [cbn [List.length]; lia|exact Ha].
Qed.

(** The identifier of a document the loop pushes for a source without an
    upstream id is built from a value the counter took during the loop. *)
Lemma carried_counter (V : Validators) (doc : Document) (ordinal : Z)
      (x : Document) :
  truthy (getSourceId doc) = false ->
  In x (carried doc None
          (attempts V doc (component_type doc) ordinal 0 (components doc))) ->
  exists n j streetno,
    ordinal < n <= ordinal + Z.of_nat (List.length (components doc)) /\
    getId x
    = VString (join "-" (newid doc (component_type doc) (VNumber n) j
                           streetno)).
Proof.
  intros Hs Hx. apply carried_In in Hx.
  destruct Hx as [(r & Hin & Hx)|(r & Hr & _)]; [|discriminate].
  apply (attempts_counter V doc _ _ Hs) in Hin.
  destruct Hin as (n & j & s & Hn & Ha).
  exists n, j, s. split; [exact Hn|].
  symmetry in Ha. apply construct_Ok in Ha.
  destruct Ha as (_ & _ & _ & _ & Hid & _).
  subst x. exact Hid.
Qed.

(** X15.  Two source documents without an upstream id, of the same type and
    both named or both unnamed: whatever is derived from the second, at
    any later point of the run (the counter being at least where the first
    left it), has an identifier different from that of everything derived
    from the first, whether or not all components are built. *)
Theorem later_document_distinct
        (V : Validators) (doc1 doc2 : Document) (st1 st2 : Stream) :
  truthy (getSourceId doc1) = false ->
  truthy (getSourceId doc2) = false ->
  getType doc1 = getType doc2 ->
  isNamedPoi doc1 = isNamedPoi doc2 ->
  0 <= idOrdinal st1 ->
  idOrdinal st1 + ordinals_used doc1 <= idOrdinal st2 ->
  exists derived1 derived2 st1' st2',
    transform V doc1 st1 = Ok st1' /\
    pushed st1'
    = (pushed st1 ++ derived1
         ++ (if isNamedPoi doc1 then [doc1] else []))%list /\
    transform V doc2 st2 = Ok st2' /\
    pushed st2'
    = (pushed st2 ++ derived2
         ++ (if isNamedPoi doc2 then [doc2] else []))%list /\
    forall r1 r2, In r1 derived1 -> In r2 derived2 -> getId r1 <> getId r2.
Proof.
  intros Hs1 Hs2 HT HN Ho Hlater.
  destruct (transform_derived V doc1 st1)
    as (derived1 & st1' & Ht1 & Hp1 & _ & Hd1).
  destruct (transform_derived V doc2 st2)
    as (derived2 & st2' & Ht2 & Hp2 & _ & Hd2).
  exists derived1, derived2, st1', st2'.
  repeat (split; [assumption|]).
  intros r1 r2 H1 H2 E.
  unfold ordinals_used in Hlater. rewrite Hs1 in Hlater.
  subst derived1 derived2.
  destruct (address_check (address doc1)); [|destruct H1].
  destruct (address_check (address doc2)); [|destruct H2].
  cbn [andb negb] in Hlater.
  apply (carried_counter V doc1 _ _ Hs1) in H1.
  apply (carried_counter V doc2 _ _ Hs2) in H2.
  destruct H1 as (n1 & j1 & s1 & Hn1 & Hid1).
  destruct H2 as (n2 & j2 & s2 & Hn2 & Hid2).
  rewrite Hid1, Hid2 in E.
  assert (Hty : component_type doc1 = component_type doc2).
  { unfold component_type. unfold isNamedPoi in HN. rewrite HN.
    reflexivity. }
  rewrite Hty in E.
  assert (E' : join "-" (newid doc1 (component_type doc2) (VNumber n1) j1 s1)
               = join "-" (newid doc2 (component_type doc2) (VNumber n2) j2
                             s2)) by congruence.
  revert E'. apply newid_counter_apart; [exact HT|lia|lia|lia].
Qed.

Lemma later_document_distinct_witness :
  exists derived1 derived2 st1' st2',
    transform strict terrace_without_id empty_stream = Ok st1' /\
    pushed st1' = ([] ++ derived1 ++ [])%list /\
    transform strict terrace_without_id (mkStream 5 [] []) = Ok st2' /\
    pushed st2' = ([] ++ derived2 ++ [])%list /\
    forall r1 r2, In r1 derived1 -> In r2 derived2 -> getId r1 <> getId r2.
Proof.
  apply (later_document_distinct strict terrace_without_id
           terrace_without_id empty_stream (mkStream 5 [] []));
    try reflexivity; vm_compute; discriminate.
Defined.

(** ** What hasValidAddress looks at *)

(** X16.  [hasValidAddress] looks at [address.number] and [address.street]
    and at nothing else: setting any other property of the document, or
    any other field of its address (a zip code, a name), to any value
    leaves its answer as it was. *)
Theorem hasValidAddress_other_fields
        (ps aps : props) (k : string) (v : value) :
  (String.eqb k "address" = false ->
   hasValidAddress (VObject (assign k v ps)) = hasValidAddress (VObject ps)) /\
  (String.eqb k "number" = false -> String.eqb k "street" = false ->
   lookup "address" ps = Some (VObject aps) ->
   hasValidAddress
     (VObject (assign "address" (VObject (assign k v aps)) ps))
   = hasValidAddress (VObject ps)).
Proof.
  split.
  - intros Hk. rewrite !hasValidAddress_object.
    rewrite lookup_assign_other; [reflexivity|].
    rewrite String.eqb_sym. exact Hk.
  - intros Hn Hs Ha. rewrite !hasValidAddress_object.
    rewrite lookup_assign_same, Ha. unfold address_check.
    rewrite !lookup_assign_other
      by (rewrite String.eqb_sym; assumption).
    reflexivity.
Qed.

Lemma hasValidAddress_other_fields_witness :
  hasValidAddress
    (VObject (assign "name" (VString "Cafe")
                [("address", VObject [("number", VString "12");
                                      ("street", VString "Main St")])]))
  = Ok true /\
  hasValidAddress
    (VObject (assign "address"
                (VObject (assign "zip" VNull
                            [("number", VString "12");
                             ("street", VString "Main St")]))
                [("address", VObject [("number", VString "12");
                                      ("street", VString "Main St")])]))
  = Ok true.
Proof.
  split.
  - exact (proj1 (hasValidAddress_other_fields
                    [("address", VObject [("number", VString "12");
                                          ("street", VString "Main St")])]
                    [] "name" (VString "Cafe")) eq_refl).
  - exact (proj2 (hasValidAddress_other_fields
                    [("address", VObject [("number", VString "12");
                                          ("street", VString "Main St")])]
                    [("number", VString "12"); ("street", VString "Main St")]
                    "zip" VNull) eq_refl eq_refl eq_refl).
Defined.
